(** * Forward dispatch of the fused dropout + residual + layer-norm kernels

    A shallow embedding of [kernels/ln_api.cpp]: the type encoder
    ([get_type_id]), the dispatch-key builder ([get_key]), the launcher
    resolver ([get_fwd_launcher]) and the forward entry point
    ([dropout_add_ln_fwd]) with its validation, its output allocation, the
    two launcher invocations and the random-generator bookkeeping.

    Conventions.
    - C++ integers are [Z]; every narrowing or wrapping the source performs
      is written out ([to_int], [to_u32], [to_u64]).
    - [float] values are IEEE numbers ([spec_float]); the source only
      compares them and derives three payload scalars from them.
    - A failed [TORCH_CHECK] is an [Err]; effects (allocations, launcher
      invocations, generator requests) are logged in the [World]. *)

From Stdlib Require Import ZArith Lia Bool List String.
From Stdlib Require Import Floats.SpecFloat.
From stdpp Require Import base decidable countable gmap.

Import ListNotations.
Local Open Scope Z_scope.

(* ------------------------------------------------------------------ *)
(** ** Machine integers *)

(** [uint32_t] and [uint64_t] values after a wrapping operation. *)
Definition to_u32 (z : Z) : Z := z mod 2 ^ 32.
Definition to_u64 (z : Z) : Z := z mod 2 ^ 64.

(** Conversion to (32-bit, two's complement) [int]. *)
Definition to_int (z : Z) : Z := (z + 2 ^ 31) mod 2 ^ 32 - 2 ^ 31.

(* ------------------------------------------------------------------ *)
(** ** Scalar types and errors *)

(** The scalar types of the tensor runtime ([torch::Dtype]); the dispatch
    only ever tells the three floating-point precisions of the kernels,
    [kUInt8] (mask), [kInt32] (indices, barrier) and [kChar] (workspace)
    from the rest. *)
Inductive Dtype : Set :=
| kUInt8 | kChar | kInt16 | kInt32 | kInt64
| kFloat16 | kFloat32 | kFloat64 | kBool | kBFloat16.

#[global] Instance Dtype_eq_dec : EqDecision Dtype.
Proof. solve_decision. Defined.

(** What a failing call reports.  A bare [TORCH_CHECK(cond)] reports the
    text of [cond]; the two messages of the source carry their arguments. *)
Inductive Error : Type :=
| CheckFailed (cond : string)
| IndexOutOfRange (dim : Z)
| TypeNotSupported (dtype : Dtype)
| UnsupportedHiddenSizeOrTypes
    (hidden_size : Z) (wtype itype rtype otype ctype : Dtype).

Inductive Result (A : Type) : Type :=
| Ok (a : A)
| Err (e : Error).
Arguments Ok {A} a.
Arguments Err {A} e.

Definition rbind {A B} (m : Result A) (k : A -> Result B) : Result B :=
  match m with
  | Ok a => k a
  | Err e => Err e
  end.

Declare Scope result_scope.
Delimit Scope result_scope with result.
Notation "'let?' x ':=' m 'in' k" := (rbind m (fun x => k))
  (at level 10, x name, m at level 100, k at level 200) : result_scope.

(** [TORCH_CHECK(cond)] without a message. *)
Definition TORCH_CHECK (cond : bool) (text : string) : Result unit :=
  if cond then Ok tt else Err (CheckFailed text).

(** The two kinds of failure of the dispatch layer. *)
Definition is_precondition_violation (e : Error) : bool :=
  match e with
  | CheckFailed _ | IndexOutOfRange _ => true
  | _ => false
  end.

Definition is_unsupported_configuration (e : Error) : bool :=
  match e with
  | TypeNotSupported _ | UnsupportedHiddenSizeOrTypes _ _ _ _ _ _ => true
  | _ => false
  end.

(* ------------------------------------------------------------------ *)
(** ** Type encoder and key builder *)

(** The three precisions the kernels are specialised for. *)
Definition supported (d : Dtype) : bool :=
  match d with
  | kFloat16 | kBFloat16 | kFloat32 => true
  | _ => false
  end.

Section TypeEncoder.

(** [TypeId<fp16>::Value], [TypeId<bf16>::Value] and
    [TypeId<fp32>::Value] are declared in [ln.h]; the encoder is
    parametric in them. *)
Variables TypeId_fp16 TypeId_bf16 TypeId_fp32 : Z.

Definition get_type_id (dtype : Dtype) : Result Z :=
  if decide (dtype = kFloat16) then Ok TypeId_fp16
  else if decide (dtype = kBFloat16) then Ok TypeId_bf16
  else if decide (dtype = kFloat32) then Ok TypeId_fp32
  else Err (TypeNotSupported dtype).

(** The type codes are [uint32_t]: the shifts and ors of [type_key] are
    32-bit, the result is widened to 64 bits before the last shift. *)
Definition get_key (wtype itype rtype otype ctype : Dtype)
    (hidden_size : Z) : Result Z :=
  (let? w := get_type_id wtype in
   let? i := get_type_id itype in
   let? r := get_type_id rtype in
   let? o := get_type_id otype in
   let? c := get_type_id ctype in
   let type_key :=
     Z.lor (Z.lor (Z.lor (Z.lor w (to_u32 (Z.shiftl i 2)))
                         (to_u32 (Z.shiftl r 4)))
                  (to_u32 (Z.shiftl o 6)))
           (to_u32 (Z.shiftl c 8)) in
   let launcher_key := Z.lor (to_u64 (Z.shiftl type_key 32)) hidden_size in
   Ok launcher_key)%result.

End TypeEncoder.

(* ------------------------------------------------------------------ *)
(** ** Floating-point scalars *)

(** [float] is IEEE binary32. *)
Definition float : Set := spec_float.
Definition float_prec : Z := 24.
Definition float_emax : Z := 128.

Definition float_zero : float := S754_zero false.
Definition float_one : float := S754_finite false 8388608 (-23).

(** The comparisons of the source; all of them are false on a NaN. *)
Definition float_gt (a b : float) : bool := SFltb b a.
Definition float_ge (a b : float) : bool := SFleb b a.
Definition float_lt (a b : float) : bool := SFltb a b.

Definition float_sub : float -> float -> float := SFsub float_prec float_emax.
Definition float_div : float -> float -> float := SFdiv float_prec float_emax.
(** [float(n)] for an [int] n. *)
Definition float_of_int (n : Z) : float :=
  binary_normalize float_prec float_emax n 0 false.

(* ------------------------------------------------------------------ *)
(** ** Tensors *)

(** The buffers the dispatch allocates itself. *)
Inductive Buffer : Set :=
| buf_x | buf_dmask | buf_z | buf_mu | buf_rsigma | buf_workspace | buf_barrier.

(** Where a tensor's data lives: in a buffer of the caller, or in one
    allocated during the call. *)
Inductive Storage : Set :=
| CallerBuffer (id : nat)
| FreshBuffer (b : Buffer).

(** What the dispatch reads of an [at::Tensor]. *)
Record Tensor : Set := mkTensor {
  scalar_type : Dtype;
  sizes : list Z;
  is_cuda : bool;
  is_contiguous : bool;
  data_ptr : Storage
}.

Definition dim (t : Tensor) : Z := Z.of_nat (List.length (sizes t)).
Definition numel (t : Tensor) : Z := fold_right Z.mul 1 (sizes t).

(** [t.size(d)] for a non-negative [d]; it throws when [t] has no such
    dimension. *)
Definition size (t : Tensor) (d : nat) : Result Z :=
  match nth_error (sizes t) d with
  | Some n => Ok n
  | None => Err (IndexOutOfRange (Z.of_nat d))
  end.

(** A raw pointer handed to the kernel; [None] is [nullptr]. *)
Definition pointer : Set := option Storage.

Definition data_ptr_or_null (t : option Tensor) : pointer :=
  match t with
  | Some t => Some (data_ptr t)
  | None => None
  end.

(** [bool(opt)] of a [c10::optional]. *)
Definition has_value {A} (o : option A) : bool :=
  match o with Some _ => true | None => false end.

(* ------------------------------------------------------------------ *)
(** ** Launch parameters, launchers and the registry *)

(** The seed/offset pair a generator hands out ([at::PhiloxCudaState]). *)
Record PhiloxCudaState : Set := mkPhilox {
  philox_seed : Z;
  philox_offset : Z
}.

Module layer_norm.

(** Modelled from the spec: [ln.h], which declares the payload
[FwdParams] and its constructor, is not among the sources at hand.  The
fields are those the dispatch writes; a payload starts with null scratch
references ([workspace], [barrier]) and no generator state, as section 4.5
of the specification has it. *)
Record FwdParams : Set := mkFwdParams {
  rows : Z;
  cols : Z;
  x0 : pointer;
  x : pointer;
  dmask : pointer;
  mu : pointer;
  rs : pointer;
  gamma : pointer;
  beta : pointer;
  z : pointer;
  residual : pointer;
  rowscale : pointer;
  colscale : pointer;
  x0_subset : pointer;
  z_subset : pointer;
  epsilon : float;
  dropout_keep_p : float;
  dropout_scale : float;
  inverse_cols : float;
  rowscale_const : float;
  is_rms_norm : bool;
  philox_args : option PhiloxCudaState;
  workspace : pointer;
  barrier : pointer
}.

(** Modelled from the spec: [LaunchParams<FwdParams>] of [ln.h], the three
sizes a launcher reports ([size_t]; work per thread, scratch bytes, barrier
elements) and the payload.  The device properties and the stream, which the
dispatch only copies from the runtime, are left out. *)
Record LaunchParams : Set := mkLaunchParams {
  elts_per_thread : Z;
  workspace_bytes : Z;
  barrier_size : Z;
  params : FwdParams
}.

(** Modelled from the spec: the launcher type [FwdFunction] of [ln.h].  A
launcher works on the launch parameters by reference; the flag tells the
configuring (query) invocation from the executing one. *)
Definition FwdFunction : Set := LaunchParams -> bool -> LaunchParams.

Definition set_philox_args (st : PhiloxCudaState) (p : FwdParams)
    : FwdParams :=
  mkFwdParams (rows p) (cols p) (x0 p) (x p) (dmask p) (mu p) (rs p)
    (gamma p) (beta p) (z p) (residual p) (rowscale p) (colscale p)
    (x0_subset p) (z_subset p) (epsilon p) (dropout_keep_p p)
    (dropout_scale p) (inverse_cols p) (rowscale_const p) (is_rms_norm p)
    (Some st) (workspace p) (barrier p).

Definition set_scratch (ws br : pointer) (p : FwdParams) : FwdParams :=
  mkFwdParams (rows p) (cols p) (x0 p) (x p) (dmask p) (mu p) (rs p)
    (gamma p) (beta p) (z p) (residual p) (rowscale p) (colscale p)
    (x0_subset p) (z_subset p) (epsilon p) (dropout_keep_p p)
    (dropout_scale p) (inverse_cols p) (rowscale_const p) (is_rms_norm p)
    (philox_args p) ws br.

Definition with_params (lp : LaunchParams) (p : FwdParams)
    : LaunchParams :=
  mkLaunchParams (elts_per_thread lp) (workspace_bytes lp)
    (barrier_size lp) p.

End layer_norm.

Abbreviation FwdFunction := layer_norm.FwdFunction.
Abbreviation LaunchParams := layer_norm.LaunchParams.
Abbreviation FwdParams := layer_norm.FwdParams.

(** [int64_t] view of a [size_t] value. *)
Definition to_i64 (z : Z) : Z := (z + 2 ^ 63) mod 2 ^ 64 - 2 ^ 63.

(* ------------------------------------------------------------------ *)
(** ** The world: generators and the log of effects *)

(** Which generator a call draws from. *)
Inductive GenRef : Set :=
| DefaultCUDAGenerator
| UserGenerator (id : nat).

#[global] Instance GenRef_eq_dec : EqDecision GenRef.
Proof. solve_decision. Defined.

(** Modelled from the spec: the random generator is a collaborator of the
    tensor runtime, not part of the sources at hand.  It holds a seed and
    a per-thread counter; a request hands out the current seed/offset pair
    and advances the counter by the requested number of draws
    (section 4.6). *)
Record CUDAGeneratorImpl : Set := mkGenerator {
  seed_ : Z;
  philox_offset_per_thread_ : Z
}.

Definition philox_cuda_state (g : CUDAGeneratorImpl) (increment : Z)
    : PhiloxCudaState * CUDAGeneratorImpl :=
  (mkPhilox (seed_ g) (philox_offset_per_thread_ g),
   mkGenerator (seed_ g) (philox_offset_per_thread_ g + increment)).

Inductive Event : Set :=
| Alloc (b : Buffer) (zeroed : bool) (shape : list Z) (dtype : Dtype)
| Launch (f : FwdFunction) (configure_params : bool) (lp : LaunchParams)
| PhiloxRequest (g : GenRef) (increment : Z).

Record World : Set := mkWorld {
  generators : GenRef -> CUDAGeneratorImpl;
  log : list Event
}.

Definition emit (e : Event) (w : World) : World :=
  mkWorld (generators w) (log w ++ [e]).

(** Computations of the dispatch: they may fail, and what they did to the
    world before failing stays done. *)
Definition M (A : Type) : Type := World -> Result A * World.

Definition ret {A} (a : A) : M A := fun w => (Ok a, w).

Definition bind {A B} (m : M A) (k : A -> M B) : M B :=
  fun w =>
    match m w with
    | (Ok a, w') => k a w'
    | (Err e, w') => (Err e, w')
    end.

Definition lift {A} (r : Result A) : M A := fun w => (r, w).

Declare Scope dispatch_scope.
Delimit Scope dispatch_scope with dispatch.
Notation "'let*' x ':=' m 'in' k" := (bind m (fun x => k))
  (at level 10, x name, m at level 100, k at level 200) : dispatch_scope.

(** [torch::empty(shape, opts.dtype(dtype))] and [torch::zeros]: the
    options are those of the input, so the tensor is on its device and
    contiguous.  The allocator itself belongs to the runtime: it is taken
    to deliver. *)
Definition torch_alloc (zeroed : bool) (b : Buffer) (shape : list Z)
    (dtype : Dtype) : M Tensor :=
  fun w => (Ok (mkTensor dtype shape true true (FreshBuffer b)),
            emit (Alloc b zeroed shape dtype) w).

Definition torch_empty := torch_alloc false.
Definition torch_zeros := torch_alloc true.

(** [launcher(launch_params, flag)]. *)
Definition invoke (f : FwdFunction) (lp : LaunchParams)
    (configure_params : bool) : M LaunchParams :=
  fun w => (Ok (f lp configure_params), emit (Launch f configure_params lp) w).

(** [gen->philox_cuda_state(increment)], under the generator's lock. *)
Definition request_philox (g : GenRef) (increment : Z) : M PhiloxCudaState :=
  fun w =>
    let (st, g') := philox_cuda_state (generators w g) increment in
    (Ok st,
     emit (PhiloxRequest g increment)
       (mkWorld (fun h => if decide (h = g) then g' else generators w h)
                (log w))).

(* ------------------------------------------------------------------ *)
(** ** The arguments of a call *)

Record Args : Set := mkArgs {
  x0 : Tensor;
  residual_ : option Tensor;
  gamma : Tensor;
  beta_ : option Tensor;
  rowscale_ : option Tensor;
  colscale_ : option Tensor;
  x0_subset_ : option Tensor;
  z_subset_ : option Tensor;
  dropout_p : float;
  epsilon : float;
  rowscale_const : float;
  z_numrows : Z;
  gen_ : option nat;
  residual_in_fp32 : bool;
  is_rms_norm : bool
}.

(** The shape the checks settle on: [sizes], [rows], [cols] and
    [hidden_size] of the source. *)
Record Dims : Set := mkDims {
  d_sizes : list Z;
  d_rows : Z;
  d_cols : Z;
  d_hidden_size : Z
}.

Definition itype_of (a : Args) : Dtype := scalar_type (x0 a).
Definition rtype_of (a : Args) : Dtype :=
  match residual_ a with
  | Some residual => scalar_type residual
  | None => if residual_in_fp32 a then kFloat32 else scalar_type (x0 a)
  end.
Definition wtype_of (a : Args) : Dtype := scalar_type (gamma a).
Definition otype_of (a : Args) : Dtype := itype_of a.
Definition ctype : Dtype := kFloat32.
Definition mtype : Dtype := kUInt8.

(** [at::get_generator_or_default]. *)
Definition get_generator_or_default (gen : option nat) : GenRef :=
  match gen with
  | Some id => UserGenerator id
  | None => DefaultCUDAGenerator
  end.

Definition round_multiple (x m : Z) : Z :=
  to_int (to_int (Z.quot (to_int (to_int (x + m) - 1)) m) * m).

Definition multiple (hidden_size : Z) : Z :=
  if hidden_size <=? 1536 then 256
  else if hidden_size <=? 3072 then 512 else 1024.

(** [save_x] of the source. *)
Definition save_x (a : Args) : bool :=
  has_value (residual_ a) || float_gt (dropout_p a) float_zero
  || has_value (rowscale_ a) || has_value (colscale_ a)
  || has_value (x0_subset_ a)
  || bool_decide (itype_of a <> rtype_of a).

(** *** The checks that come before any allocation *)

Definition check_beta (a : Args) : Result unit :=
  match beta_ a with
  | Some beta =>
     (let? _ := TORCH_CHECK (bool_decide (scalar_type beta = wtype_of a))
                  "beta.dtype() == wtype" in
      let? _ := TORCH_CHECK (is_cuda beta) "beta.is_cuda()" in
      let? _ := TORCH_CHECK (is_contiguous beta) "beta.is_contiguous()" in
      TORCH_CHECK (bool_decide (sizes beta = sizes (gamma a)))
        "beta.sizes() == gamma.sizes()")%result
  | None => Ok tt
  end.

Definition check_residual (a : Args) (sizes_ : list Z) : Result unit :=
  match residual_ a with
  | Some residual =>
     (let? _ := TORCH_CHECK (is_cuda residual) "residual.is_cuda()" in
      let? _ := TORCH_CHECK (is_contiguous residual)
                  "residual.is_contiguous()" in
      TORCH_CHECK (bool_decide (sizes residual = sizes_))
        "residual.sizes() == sizes")%result
  | None => Ok tt
  end.

Definition check_rowscale (a : Args) (rows : Z) : Result unit :=
  match rowscale_ a with
  | Some rowscale =>
     (let? _ := TORCH_CHECK (is_cuda rowscale) "rowscale.is_cuda()" in
      let? _ := TORCH_CHECK (is_contiguous rowscale)
                  "rowscale.is_contiguous()" in
      let? _ := TORCH_CHECK (bool_decide (sizes rowscale = [rows]))
                  "rowscale.sizes() == c10::IntArrayRef{rows}" in
      TORCH_CHECK (bool_decide (scalar_type rowscale = itype_of a))
        "rowscale.dtype() == itype")%result
  | None => Ok tt
  end.

Definition check_colscale (a : Args) (cols : Z) : Result unit :=
  match colscale_ a with
  | Some colscale =>
     (let? _ := TORCH_CHECK (is_cuda colscale) "colscale.is_cuda()" in
      let? _ := TORCH_CHECK (is_contiguous colscale)
                  "colscale.is_contiguous()" in
      let? _ := TORCH_CHECK (bool_decide (sizes colscale = [cols]))
                  "colscale.sizes() == c10::IntArrayRef{cols}" in
      TORCH_CHECK (bool_decide (scalar_type colscale = wtype_of a))
        "colscale.dtype() == wtype")%result
  | None => Ok tt
  end.

Definition check_subset (a : Args) (rows : Z) : Result unit :=
  match x0_subset_ a with
  | Some x0_subset =>
     (let? _ := TORCH_CHECK (is_cuda x0_subset) "x0_subset.is_cuda()" in
      let? _ := TORCH_CHECK (is_contiguous x0_subset)
                  "x0_subset.is_contiguous()" in
      let? _ := TORCH_CHECK (bool_decide (sizes x0_subset = [rows]))
                  "x0_subset.sizes() == c10::IntArrayRef{rows}" in
      let? _ := TORCH_CHECK (bool_decide (scalar_type x0_subset = kInt32))
                  "x0_subset.dtype() == torch::kInt32" in
      let? _ := TORCH_CHECK (has_value (z_subset_ a))
                  "z_subset_.has_value()" in
      match z_subset_ a with
      | Some z_subset =>
         let? _ := TORCH_CHECK (is_cuda z_subset) "z_subset.is_cuda()" in
         let? _ := TORCH_CHECK (is_contiguous z_subset)
                     "z_subset.is_contiguous()" in
         let? _ := TORCH_CHECK (bool_decide (sizes z_subset = [rows]))
                     "z_subset.sizes() == c10::IntArrayRef{rows}" in
         TORCH_CHECK (bool_decide (scalar_type z_subset = kInt32))
           "z_subset.dtype() == torch::kInt32"
      | None => Ok tt
      end)%result
  | None => Ok tt
  end.

(** The first two elements of [sizes_vec], in the order they are read. *)
Definition sizes_vec (a : Args) : Result (list Z) :=
  (let? n := match x0_subset_ a with
             | None => size (x0 a) 0
             | Some x0_subset => size x0_subset 0
             end in
   let? c := size (x0 a) 1 in
   Ok [n; c])%result.

Definition check_args (a : Args) : Result Dims :=
  (let? _ := TORCH_CHECK (is_cuda (x0 a)) "x0.is_cuda()" in
   let? _ := TORCH_CHECK (is_cuda (gamma a)) "gamma.is_cuda()" in
   let? _ := TORCH_CHECK (is_contiguous (x0 a)) "x0.is_contiguous()" in
   let? sizes_ := sizes_vec a in
   let? _ := TORCH_CHECK (dim (x0 a) =? 2) "x0.dim() == 2" in
   let? _ := TORCH_CHECK (Z.of_nat (List.length sizes_) =? 2)
               "sizes.size() == 2" in
   let rows := to_int (nth 0 sizes_ 0) in
   let cols := to_int (nth 1 sizes_ 0) in
   let hidden_size := numel (gamma a) in
   let? _ := TORCH_CHECK (hidden_size =? cols) "hidden_size == cols" in
   let? _ := check_beta a in
   let? _ := check_residual a sizes_ in
   let? _ := check_rowscale a rows in
   let? _ := check_colscale a cols in
   let? _ := check_subset a rows in
   let? _ := TORCH_CHECK ((Z.rem hidden_size 8 =? 0) && (hidden_size <=? 8192))
               "(hidden_size % 8 == 0) && (hidden_size <= 8192)" in
   let? _ := TORCH_CHECK (float_ge (epsilon a) float_zero)
               "epsilon >= 0.f" in
   Ok (mkDims sizes_ rows cols hidden_size))%result.

(* ------------------------------------------------------------------ *)
(** ** Launcher resolution and the forward entry point *)

Section Dispatch.

Variables TypeId_fp16 TypeId_bf16 TypeId_fp32 : Z.

(** The registry [layer_norm::FWD_FUNCS], filled before any call. *)
Variable FWD_FUNCS : gmap Z FwdFunction.

(** [hidden_size] is a [uint32_t] here and widens to the 64-bit
    parameter of [get_key] unchanged. *)
Definition get_fwd_launcher (wtype itype rtype otype ctype : Dtype)
    (hidden_size : Z) : Result FwdFunction :=
  (let? key := get_key TypeId_fp16 TypeId_bf16 TypeId_fp32
                 wtype itype rtype otype ctype hidden_size in
   match FWD_FUNCS !! key with
   | Some launcher => Ok launcher
   | None =>
       Err (UnsupportedHiddenSizeOrTypes
              hidden_size wtype itype rtype otype ctype)
   end)%result.

(** The payload as it stands when the launcher is first invoked. *)
Definition build_params (a : Args) (d : Dims)
    (x dmask : option Tensor) (z mu rsigma : Tensor) : FwdParams :=
  layer_norm.mkFwdParams
    (d_rows d)
    (d_cols d)
    (Some (data_ptr (x0 a)))
    (if save_x a then data_ptr_or_null x else None)
    (if float_gt (dropout_p a) float_zero
     then data_ptr_or_null dmask else None)
    (Some (data_ptr mu))
    (Some (data_ptr rsigma))
    (Some (data_ptr (gamma a)))
    (data_ptr_or_null (beta_ a))
    (Some (data_ptr z))
    (data_ptr_or_null (residual_ a))
    (data_ptr_or_null (rowscale_ a))
    (data_ptr_or_null (colscale_ a))
    (data_ptr_or_null (x0_subset_ a))
    (data_ptr_or_null (z_subset_ a))
    (epsilon a)
    (float_sub float_one (dropout_p a))
    (float_div float_one (float_sub float_one (dropout_p a)))
    (float_div float_one (float_of_int (d_cols d)))
    (rowscale_const a)
    (is_rms_norm a)
    None None None.

(** The saved intermediate and the mask, each allocated on its own
    condition; an absent one is the undefined tensor. *)
Definition alloc_if (c : bool) (b : Buffer) (shape : list Z)
    (dtype : Dtype) : M (option Tensor) :=
  if c
  then (let* t := torch_empty b shape dtype in ret (Some t))%dispatch
  else ret None.

(** The generator request of an active dropout. *)
Definition advance_generator (a : Args) (lp : LaunchParams)
    : M LaunchParams :=
  if float_gt (dropout_p a) float_zero then
    (let counter_offset := to_i64 (layer_norm.elts_per_thread lp) in
     let* st := request_philox (get_generator_or_default (gen_ a))
                  (to_u64 counter_offset) in
     ret (layer_norm.with_params lp
            (layer_norm.set_philox_args st (layer_norm.params lp))))%dispatch
  else ret lp.

(** Barrier and workspace, when the launcher asked for a barrier. *)
Definition alloc_scratch (lp : LaunchParams) : M LaunchParams :=
  if 0 <? layer_norm.barrier_size lp then
    (let* barrier := torch_zeros buf_barrier
                       [to_i64 (layer_norm.barrier_size lp)] kInt32 in
     let* workspace := torch_empty buf_workspace
                         [to_i64 (layer_norm.workspace_bytes lp)] kChar in
     ret (layer_norm.with_params lp
            (layer_norm.set_scratch
               (Some (data_ptr workspace)) (Some (data_ptr barrier))
               (layer_norm.params lp))))%dispatch
  else ret lp.

(** The launcher is asked for with the hidden size rounded by
    [round_multiple]; the [int] result becomes the [uint32_t]
    parameter of [get_fwd_launcher]. *)
Definition launcher_hidden_size (hidden_size : Z) : Z :=
  to_u32 (round_multiple (to_int hidden_size) (multiple hidden_size)).

(** [dropout_add_ln_fwd]; the returned vector is
    [{ z, x, dmask, mu, rsigma }].  The device guard, and the device
    properties and the stream copied into the launch parameters, have no
    part in what follows and are left out; the three sizes of the launch
    parameters, which the source leaves unset until the configuring
    invocation writes them, start at 0. *)
Definition dropout_add_ln_fwd (a : Args) : M (list (option Tensor)) :=
  (let itype := itype_of a in
   let rtype := rtype_of a in
   let wtype := wtype_of a in
   let otype := otype_of a in
   let* d := lift (check_args a) in
   let* x := alloc_if (save_x a) buf_x (d_sizes d) rtype in
   let* dmask := alloc_if (float_gt (dropout_p a) float_zero)
                   buf_dmask (sizes (x0 a)) mtype in
   let* z := torch_empty buf_z
               (if has_value (z_subset_ a)
                then [z_numrows a; d_cols d] else d_sizes d) otype in
   let* mu := torch_empty buf_mu [d_rows d] ctype in
   let* rsigma := torch_empty buf_rsigma [d_rows d] ctype in
   let* _ := lift (TORCH_CHECK (float_lt (dropout_p a) float_one)
                     "dropout_p < 1.f") in
   let* launcher :=
     lift (get_fwd_launcher wtype itype rtype otype ctype
             (launcher_hidden_size (d_hidden_size d))) in
   let launch_params :=
     layer_norm.mkLaunchParams 0 0 0 (build_params a d x dmask z mu rsigma) in
   let* launch_params := invoke launcher launch_params true in
   let* launch_params := advance_generator a launch_params in
   let* launch_params := alloc_scratch launch_params in
   let* _ := invoke launcher launch_params false in
   ret [Some z; x; dmask; Some mu; Some rsigma])%dispatch.

End Dispatch.

(* ------------------------------------------------------------------ *)
(** ** A concrete configuration *)

Module Scenario.

(** Type codes 0, 1 and 2, one launcher registered for fp32 throughout
    at the 256 bucket and one at the 2048 bucket, the latter asking for
    a barrier. *)
Definition ids : Z * Z * Z := (0, 1, 2).

Definition launcher_small : FwdFunction := fun lp configure_params =>
  if configure_params
  then layer_norm.mkLaunchParams 8 0 0 (layer_norm.params lp)
  else lp.

Definition launcher_wide : FwdFunction := fun lp configure_params =>
  if configure_params
  then layer_norm.mkLaunchParams 16 4096 32 (layer_norm.params lp)
  else lp.

Definition key_fp32 (hidden_size : Z) : Z :=
  Z.lor (Z.shiftl (Z.lor (Z.lor (Z.lor (Z.lor 2 8) 32) 128) 512) 32)
        hidden_size.

Definition registry : gmap Z FwdFunction :=
  <[key_fp32 2048 := launcher_wide]>
    (<[key_fp32 256 := launcher_small]> ∅).

Definition vec (n : Z) (id : nat) (t : Dtype) : Tensor :=
  mkTensor t [n] true true (CallerBuffer id).
Definition mat (r c : Z) (id : nat) (t : Dtype) : Tensor :=
  mkTensor t [r; c] true true (CallerBuffer id).

Definition eps : float := S754_finite false 11010048 (-40).
Definition half : float := S754_finite false 8388608 (-24).

Definition world0 : World :=
  mkWorld (fun _ => mkGenerator 42 1000) [].

(** Four rows of 256 columns, nothing optional. *)
Definition plain : Args :=
  mkArgs (mat 4 256 0 kFloat32) None (vec 256 1 kFloat32) None None None
    None None float_zero eps float_one 0 None false false.

(** Four rows of 200 columns: served by the 256 bucket. *)
Definition narrow : Args :=
  mkArgs (mat 4 200 0 kFloat32) None (vec 200 1 kFloat32) None None None
    None None float_zero eps float_one 0 None false false.

(** Two rows of 2048 columns: the launcher asks for a barrier. *)
Definition wide : Args :=
  mkArgs (mat 2 2048 0 kFloat32) None (vec 2048 1 kFloat32) None None None
    None None float_zero eps float_one 0 None false false.

(** A residual to add. *)
Definition with_residual : Args :=
  mkArgs (mat 4 256 0 kFloat32) (Some (mat 4 256 2 kFloat32))
    (vec 256 1 kFloat32) None None None
    None None float_zero eps float_one 0 None false false.

(** Dropout with probability one half, on the default generator. *)
Definition with_dropout : Args :=
  mkArgs (mat 4 256 0 kFloat32) None (vec 256 1 kFloat32) None None None
    None None half eps float_one 0 None false false.

(** Four of the eight rows of the input gathered, scattered into an
    output of eight rows, with dropout. *)
Definition gathered : Args :=
  mkArgs (mat 8 256 0 kFloat32) None (vec 256 1 kFloat32) None None None
    (Some (vec 4 3 kInt32)) (Some (vec 4 4 kInt32))
    half eps float_one 8 None false false.

(** The gather index without the scatter index. *)
Definition gather_only : Args :=
  mkArgs (mat 8 256 0 kFloat32) None (vec 256 1 kFloat32) None None None
    (Some (vec 4 3 kInt32)) None
    half eps float_one 8 None false false.

(** The scatter index without the gather index; the buffer is on the
    host, strided, of 64-bit integers and three entries long. *)
Definition scatter_only : Args :=
  mkArgs (mat 4 256 0 kFloat32) None (vec 256 1 kFloat32) None None None
    None (Some (mkTensor kInt64 [3] false false (CallerBuffer 4)))
    float_zero eps float_one 4 None false false.

(** No columns at all. *)
Definition zero_width : Args :=
  mkArgs (mat 4 0 0 kFloat32) None (vec 0 1 kFloat32) None None None
    None None float_zero eps float_one 0 None false false.

(** A registry that also has a launcher for the empty bucket. *)
Definition registry_with_zero : gmap Z FwdFunction :=
  <[key_fp32 0 := launcher_small]> registry.

(** Dropout with probability exactly one. *)
Definition full_dropout : Args :=
  mkArgs (mat 4 256 0 kFloat32) None (vec 256 1 kFloat32) None None None
    None None float_one eps float_one 0 None false false.


Definition run (a : Args) (w : World) :=
  dropout_add_ln_fwd 0 1 2 registry a w.

(** The world once the call with dropout has returned. *)
Definition world1 : World := snd (run with_dropout world0).

End Scenario.

(* ------------------------------------------------------------------ *)
(** ** What a call does, step by step *)

Section Trace.

Variables TypeId_fp16 TypeId_bf16 TypeId_fp32 : Z.
Variable FWD_FUNCS : gmap Z FwdFunction.

Let resolve := get_fwd_launcher TypeId_fp16 TypeId_bf16 TypeId_fp32 FWD_FUNCS.

Definition fresh (b : Buffer) (shape : list Z) (dtype : Dtype) : Tensor :=
  mkTensor dtype shape true true (FreshBuffer b).

(** The five returned tensors of a call whose checks gave [d]. *)
Definition out_x (a : Args) (d : Dims) : option Tensor :=
  if save_x a then Some (fresh buf_x (d_sizes d) (rtype_of a)) else None.
Definition out_dmask (a : Args) : option Tensor :=
  if float_gt (dropout_p a) float_zero
  then Some (fresh buf_dmask (sizes (x0 a)) mtype) else None.
Definition z_shape (a : Args) (d : Dims) : list Z :=
  if has_value (z_subset_ a) then [z_numrows a; d_cols d] else d_sizes d.
Definition out_z (a : Args) (d : Dims) : Tensor :=
  fresh buf_z (z_shape a d) (otype_of a).
Definition out_mu (d : Dims) : Tensor := fresh buf_mu [d_rows d] ctype.
Definition out_rsigma (d : Dims) : Tensor :=
  fresh buf_rsigma [d_rows d] ctype.

Definition outputs (a : Args) (d : Dims) : list (option Tensor) :=
  [Some (out_z a d); out_x a d; out_dmask a; Some (out_mu d);
   Some (out_rsigma d)].

(** The allocations of the outputs, in order. *)
Definition output_allocs (a : Args) (d : Dims) : list Event :=
  (if save_x a then [Alloc buf_x false (d_sizes d) (rtype_of a)] else [])
  ++ (if float_gt (dropout_p a) float_zero
      then [Alloc buf_dmask false (sizes (x0 a)) mtype] else [])
  ++ [Alloc buf_z false (z_shape a d) (otype_of a);
      Alloc buf_mu false [d_rows d] ctype;
      Alloc buf_rsigma false [d_rows d] ctype].

(** The launch parameters of the query invocation. *)
Definition query_params (a : Args) (d : Dims) : LaunchParams :=
  layer_norm.mkLaunchParams 0 0 0
    (build_params a d (out_x a d) (out_dmask a) (out_z a d)
       (out_mu d) (out_rsigma d)).

Definition draws (lp : LaunchParams) : Z :=
  to_u64 (to_i64 (layer_norm.elts_per_thread lp)).

(** Generator request and scratch allocation between the invocations:
    their events, and the launch parameters they leave. *)
Definition generator_events (a : Args) (lp : LaunchParams) : list Event :=
  if float_gt (dropout_p a) float_zero
  then [PhiloxRequest (get_generator_or_default (gen_ a)) (draws lp)]
  else [].

Definition scratch_events (lp : LaunchParams) : list Event :=
  if 0 <? layer_norm.barrier_size lp
  then [Alloc buf_barrier true [to_i64 (layer_norm.barrier_size lp)] kInt32;
        Alloc buf_workspace false
          [to_i64 (layer_norm.workspace_bytes lp)] kChar]
  else [].

Definition with_generator (a : Args) (w : World) (lp : LaunchParams)
    : LaunchParams :=
  if float_gt (dropout_p a) float_zero
  then layer_norm.with_params lp
         (layer_norm.set_philox_args
            (fst (philox_cuda_state
                    (generators w (get_generator_or_default (gen_ a)))
                    (draws lp)))
            (layer_norm.params lp))
  else lp.

Definition with_scratch (lp : LaunchParams) : LaunchParams :=
  if 0 <? layer_norm.barrier_size lp
  then layer_norm.with_params lp
         (layer_norm.set_scratch
            (Some (FreshBuffer buf_workspace))
            (Some (FreshBuffer buf_barrier))
            (layer_norm.params lp))
  else lp.

Definition execute_params (a : Args) (d : Dims) (f : FwdFunction)
    (w : World) : LaunchParams :=
  with_scratch (with_generator a w (f (query_params a d) true)).

Definition generators_after (a : Args) (lp : LaunchParams) (w : World)
    : GenRef -> CUDAGeneratorImpl :=
  if float_gt (dropout_p a) float_zero
  then fun h =>
         if decide (h = get_generator_or_default (gen_ a))
         then snd (philox_cuda_state
                     (generators w (get_generator_or_default (gen_ a)))
                     (draws lp))
         else generators w h
  else generators w.

(** Everything a completed call logs. *)
Definition call_events (a : Args) (d : Dims) (f : FwdFunction) (w : World)
    : list Event :=
  output_allocs a d
  ++ [Launch f true (query_params a d)]
  ++ generator_events a (f (query_params a d) true)
  ++ scratch_events (f (query_params a d) true)
  ++ [Launch f false (execute_params a d f w)].

Definition after_allocs (a : Args) (d : Dims) (w : World) : World :=
  mkWorld (generators w) (log w ++ output_allocs a d).

Definition after_call (a : Args) (d : Dims) (f : FwdFunction) (w : World)
    : World :=
  mkWorld (generators_after a (f (query_params a d) true) w)
          (log w ++ call_events a d f w).

Definition resolve_for (a : Args) (d : Dims) : Result FwdFunction :=
  resolve (wtype_of a) (itype_of a) (rtype_of a) (otype_of a) ctype
    (launcher_hidden_size (d_hidden_size d)).

End Trace.

(* ------------------------------------------------------------------ *)
(** ** Vocabulary of the statements *)

(** The text of the check on the dropout probability, the one check that
    comes after the allocations. *)
Definition dropout_bound : string := "dropout_p < 1.f".

(** The failures of the checks ahead of the allocations: precondition
    violations other than the dropout bound. *)
Definition early_error (e : Error) : Prop :=
  is_precondition_violation e = true /\ e <> CheckFailed dropout_bound.

Definition fails_early {A} (r : Result A) : Prop :=
  forall e, r = Err e -> early_error e.

(** The fields of a key: the hidden size in bits 0-31, then one 2-bit
    field per role, from bit 32 on (weight, input, residual, output,
    compute). *)
Definition hidden_field (key : Z) : Z := Z.land key (Z.ones 32).
Definition type_field (key : Z) (role : Z) : Z :=
  Z.land (Z.shiftr key (32 + 2 * role)) (Z.ones 2).

(** The launcher invocations among some events, in order. *)
Fixpoint launches (l : list Event) : list (FwdFunction * bool * LaunchParams) :=
  match l with
  | [] => []
  | Launch f q lp :: l' => (f, q, lp) :: launches l'
  | _ :: l' => launches l'
  end.

(** The allocations among some events, in order. *)
Fixpoint allocations (l : list Event) : list Buffer :=
  match l with
  | [] => []
  | Alloc b _ _ _ :: l' => b :: allocations l'
  | _ :: l' => allocations l'
  end.

(** The generator requests among some events, in order. *)
Fixpoint requests (l : list Event) : list (GenRef * Z) :=
  match l with
  | [] => []
  | PhiloxRequest g n :: l' => (g, n) :: requests l'
  | _ :: l' => requests l'
  end.

(** The configuring invocation leaves a field of the payload as the
    dispatch set it. *)
Definition query_keeps {A} (field : FwdParams -> A) (f : FwdFunction)
    : Prop :=
  forall lp, field (layer_norm.params (f lp true))
             = field (layer_norm.params lp).

(** The three sizes a launcher reports are [size_t] values. *)
Definition reports_sizes (f : FwdFunction) : Prop :=
  forall lp,
    0 <= layer_norm.elts_per_thread (f lp true) < 2 ^ 64
    /\ 0 <= layer_norm.workspace_bytes (f lp true) < 2 ^ 64
    /\ 0 <= layer_norm.barrier_size (f lp true) < 2 ^ 64.


(** A float below zero. *)
Definition is_negative (x : float) : bool :=
  match x with
  | S754_finite true _ _ | S754_infinity true => true
  | _ => false
  end.

(** The numeric-range conditions the source checks: the hidden size a
    multiple of 8 no larger than 8192, the dropout probability below 1,
    epsilon not below 0. *)
Definition in_range (a : Args) : Prop :=
  (Z.rem (numel (gamma a)) 8 = 0 /\ numel (gamma a) <= 8192)
  /\ float_lt (dropout_p a) float_one = true
  /\ float_ge (epsilon a) float_zero = true.

(** An index buffer as the checks want it. *)
Definition index_ok (rows : Z) (t : Tensor) : Prop :=
  is_cuda t = true /\ is_contiguous t = true
  /\ sizes t = [rows] /\ scalar_type t = kInt32.

(* ------------------------------------------------------------------ *)
(** ** Further vocabulary *)

(** A payload without what the dispatch writes between the two
    invocations: the generator state and the scratch references. *)
Definition payload_core (p : FwdParams) : FwdParams :=
  layer_norm.set_scratch None None
    (layer_norm.mkFwdParams
       (layer_norm.rows p) (layer_norm.cols p) (layer_norm.x0 p)
       (layer_norm.x p) (layer_norm.dmask p) (layer_norm.mu p)
       (layer_norm.rs p) (layer_norm.gamma p) (layer_norm.beta p)
       (layer_norm.z p) (layer_norm.residual p) (layer_norm.rowscale p)
       (layer_norm.colscale p) (layer_norm.x0_subset p)
       (layer_norm.z_subset p) (layer_norm.epsilon p)
       (layer_norm.dropout_keep_p p) (layer_norm.dropout_scale p)
       (layer_norm.inverse_cols p) (layer_norm.rowscale_const p)
       (layer_norm.is_rms_norm p) None
       (layer_norm.workspace p) (layer_norm.barrier p)).

(** The same call with another weight tensor, and with another setting of
    the [residual_in_fp32] flag. *)
Definition with_gamma (g : Tensor) (a : Args) : Args :=
  mkArgs (x0 a) (residual_ a) g (beta_ a) (rowscale_ a) (colscale_ a)
    (x0_subset_ a) (z_subset_ a) (dropout_p a) (epsilon a)
    (rowscale_const a) (z_numrows a) (gen_ a) (residual_in_fp32 a)
    (is_rms_norm a).

Definition with_residual_in_fp32 (b : bool) (a : Args) : Args :=
  mkArgs (x0 a) (residual_ a) (gamma a) (beta_ a) (rowscale_ a)
    (colscale_ a) (x0_subset_ a) (z_subset_ a) (dropout_p a) (epsilon a)
    (rowscale_const a) (z_numrows a) (gen_ a) b (is_rms_norm a).

(** A returned tensor, if defined, is on the device, contiguous and in a
    buffer allocated by the call. *)
Definition freshly_allocated (o : option Tensor) : Prop :=
  forall t, o = Some t ->
    is_cuda t = true /\ is_contiguous t = true
    /\ exists b, data_ptr t = FreshBuffer b.

(** The precision of the saved intermediate, as lines 88-90 of the source
    derive it. *)
Definition residual_precision (a : Args) : Dtype :=
  match residual_ a with
  | Some residual => scalar_type residual
  | None => if residual_in_fp32 a then kFloat32 else scalar_type (x0 a)
  end.

(** What the checks want of the four optional operands. *)
Definition beta_ok (a : Args) (beta : Tensor) : Prop :=
  scalar_type beta = scalar_type (gamma a)
  /\ is_cuda beta = true /\ is_contiguous beta = true
  /\ sizes beta = sizes (gamma a).

Definition colscale_ok (a : Args) (colscale : Tensor) : Prop :=
  is_cuda colscale = true /\ is_contiguous colscale = true
  /\ sizes colscale = [numel (gamma a)]
  /\ scalar_type colscale = scalar_type (gamma a).

Definition residual_ok (shape : list Z) (residual : Tensor) : Prop :=
  is_cuda residual = true /\ is_contiguous residual = true
  /\ sizes residual = shape.

Definition rowscale_ok (a : Args) (rows : Z) (rowscale : Tensor) : Prop :=
  is_cuda rowscale = true /\ is_contiguous rowscale = true
  /\ sizes rowscale = [rows]
  /\ scalar_type rowscale = scalar_type (x0 a).



(** A call that failed in the checks ahead of the allocations. *)
Definition failed_early (res : Result (list (option Tensor)))
    (w w' : World) : Prop :=
  exists e, res = Err e /\ is_precondition_violation e = true /\ w' = w.

(* ------------------------------------------------------------------ *)
(** ** A second configuration: half-precision input *)

Module Mixed.

(** The type codes are 0, 1 and 2 again; the one launcher serves an fp16
input and output with fp32 weights and residual at the 256 bucket. *)
Definition key_fp16_in (hidden_size : Z) : Z :=
  match get_key 0 1 2 kFloat32 kFloat16 kFloat32 kFloat16 kFloat32
          hidden_size with
  | Ok k => k
  | Err _ => 0
  end.

Definition registry : gmap Z FwdFunction :=
  <[key_fp16_in 256 := Scenario.launcher_small]> ∅.

(** Four rows of 256 fp16 columns, fp32 weights, the residual asked for
in fp32 and none supplied. *)
Definition half_input : Args :=
  mkArgs (Scenario.mat 4 256 0 kFloat16) None (Scenario.vec 256 1 kFloat32)
    None None None None None float_zero Scenario.eps float_one 0 None
    true false.

(** An input of doubles. *)
Definition double_input : Args :=
  mkArgs (Scenario.mat 4 256 0 kFloat64) None (Scenario.vec 256 1 kFloat32)
    None None None None None float_zero Scenario.eps float_one 0 None
    false false.

(** A bias of the wrong precision, and a row scale of the wrong length. *)
Definition bad_beta : Args :=
  mkArgs (Scenario.mat 4 256 0 kFloat32) None (Scenario.vec 256 1 kFloat32)
    (Some (Scenario.vec 256 5 kFloat16)) None None None None
    float_zero Scenario.eps float_one 0 None false false.

Definition bad_rowscale : Args :=
  mkArgs (Scenario.mat 4 256 0 kFloat32) None (Scenario.vec 256 1 kFloat32)
    None (Some (Scenario.vec 3 6 kFloat32)) None None None
    float_zero Scenario.eps float_one 0 None false false.

(** A three-dimensional input. *)
Definition cube : Args :=
  mkArgs (mkTensor kFloat32 [2; 2; 256] true true (CallerBuffer 0)) None
    (Scenario.vec 256 1 kFloat32) None None None None None
    float_zero Scenario.eps float_one 0 None false false.

(** Everything optional at once, with dropout, on generator 7. *)
Definition loaded : Args :=
  mkArgs (Scenario.mat 4 256 0 kFloat32)
    (Some (Scenario.mat 4 256 2 kFloat32))
    (Scenario.vec 256 1 kFloat32)
    (Some (Scenario.vec 256 5 kFloat32))
    (Some (Scenario.vec 4 6 kFloat32))
    (Some (Scenario.vec 256 7 kFloat32))
    None None Scenario.half Scenario.eps float_one 0 (Some 7%nat)
    false true.

Definition run (a : Args) (w : World) :=
  dropout_add_ln_fwd 0 1 2 registry a w.

End Mixed.

(* ================================================================== *)
(** * Properties *)

(* ------------------------------------------------------------------ *)
(** ** The run of a call *)

Section Run.

Variables TypeId_fp16 TypeId_bf16 TypeId_fp32 : Z.
Variable FWD_FUNCS : gmap Z FwdFunction.

Let run := dropout_add_ln_fwd TypeId_fp16 TypeId_bf16 TypeId_fp32 FWD_FUNCS.

(** The run of a call, laid out along its three ways to end: a failed
    check ahead of the allocations, a failure after them, completion. *)
Lemma run_unfold (a : Args) (w : World) :
  run a w =
  match check_args a with
  | Err e => (Err e, w)
  | Ok d =>
      if float_lt (dropout_p a) float_one then
        match resolve_for TypeId_fp16 TypeId_bf16 TypeId_fp32 FWD_FUNCS
                a d with
        | Ok f => (Ok (outputs a d), after_call a d f w)
        | Err e => (Err e, after_allocs a d w)
        end
      else (Err (CheckFailed dropout_bound), after_allocs a d w)
  end.
Proof.
  unfold run, resolve_for, dropout_add_ln_fwd.
  unfold after_call, after_allocs, call_events, output_allocs, outputs,
    execute_params, query_params, generators_after, with_generator,
    with_scratch, generator_events, scratch_events, out_x, out_dmask,
    out_z, out_mu, out_rsigma, z_shape, fresh, alloc_if, advance_generator,
    alloc_scratch, draws, invoke, request_philox, torch_zeros, torch_empty,
    torch_alloc, philox_cuda_state, bind, lift, ret, emit.
  destruct w as [gens lg].
  destruct (check_args a) as [d|e]; [|reflexivity].
  destruct (save_x a) eqn:Hsx, (float_gt (dropout_p a) float_zero) eqn:Hdp;
    cbn [log generators fst snd data_ptr];
    (destruct (float_lt (dropout_p a) float_one);
     cbn [TORCH_CHECK]; rewrite <- ?app_assoc; [|reflexivity]);
    (match goal with
     | |- context [get_fwd_launcher ?a1 ?a2 ?a3 ?r ?w1 ?i ?rt ?o ?c ?h] =>
         destruct (get_fwd_launcher a1 a2 a3 r w1 i rt o c h) as [f|e]
     end; [|reflexivity]);
    rewrite ?Hsx, ?Hdp;
    cbn [log generators fst snd data_ptr layer_norm.barrier_size
         layer_norm.workspace_bytes layer_norm.elts_per_thread
         layer_norm.with_params];
    match goal with
    | |- context [0 <? layer_norm.barrier_size ?lp] =>
        destruct (0 <? layer_norm.barrier_size lp) eqn:Hb
    end;
    cbn [log generators fst snd data_ptr layer_norm.barrier_size
         layer_norm.workspace_bytes layer_norm.elts_per_thread
         layer_norm.with_params];
    rewrite ?Hb; cbn [log generators fst snd data_ptr];
    rewrite <- ?app_assoc; reflexivity.
Qed.

End Run.

(* ------------------------------------------------------------------ *)
(** ** Facts about the checks *)

Lemma rbind_ok_inv {A B} (m : Result A) (k : A -> Result B) (b : B) :
  rbind m k = Ok b -> exists a, m = Ok a /\ k a = Ok b.
Proof. destruct m as [a|e]; simpl; [eauto | discriminate]. Qed.

Lemma TORCH_CHECK_ok_inv (c : bool) (s : string) (u : unit) :
  TORCH_CHECK c s = Ok u -> c = true.
Proof. destruct c; simpl; [reflexivity | discriminate]. Qed.

(** Peel the leading step off a successful chain of checks. *)
Tactic Notation "step_ok" hyp(H) "as" ident(Hc) :=
  let v := fresh "v" in
  apply rbind_ok_inv in H; destruct H as (v & Hc & H);
  try (apply TORCH_CHECK_ok_inv in Hc); try (destruct v).

Lemma fails_early_ok {A} (a : A) : fails_early (Ok a).
Proof. intros e H; discriminate. Qed.

Lemma fails_early_check (c : bool) (s : string) :
  s <> dropout_bound -> fails_early (TORCH_CHECK c s).
Proof.
  intros Hs e; destruct c; simpl; intros H; inversion H; subst.
  split; [reflexivity | congruence].
Qed.

Lemma fails_early_bind {A B} (m : Result A) (k : A -> Result B) :
  fails_early m -> (forall a, fails_early (k a)) -> fails_early (rbind m k).
Proof.
  intros Hm Hk e. destruct m as [a|e']; simpl.
  - apply Hk.
  - intros H; inversion H; subst; apply Hm; reflexivity.
Qed.

Lemma fails_early_size (t : Tensor) (d : nat) : fails_early (size t d).
Proof.
  intros e. unfold size. destruct (nth_error (sizes t) d); intros H;
    inversion H; split; [reflexivity | discriminate].
Qed.

Create HintDb checks.
#[local] Hint Resolve fails_early_ok fails_early_size : checks.
#[local] Hint Extern 1 (fails_early (TORCH_CHECK _ _)) =>
  (apply fails_early_check; unfold dropout_bound; discriminate) : checks.

Ltac check_chain :=
  repeat (first [ solve [auto with checks]
                | apply fails_early_bind; [| intros ? ] ]).

Lemma fails_early_beta a : fails_early (check_beta a).
Proof. unfold check_beta; destruct (beta_ a); check_chain. Qed.

Lemma fails_early_residual a s : fails_early (check_residual a s).
Proof. unfold check_residual; destruct (residual_ a); check_chain. Qed.

Lemma fails_early_rowscale a r : fails_early (check_rowscale a r).
Proof. unfold check_rowscale; destruct (rowscale_ a); check_chain. Qed.

Lemma fails_early_colscale a c : fails_early (check_colscale a c).
Proof. unfold check_colscale; destruct (colscale_ a); check_chain. Qed.

Lemma fails_early_subset a r : fails_early (check_subset a r).
Proof.
  unfold check_subset; destruct (x0_subset_ a); check_chain.
  destruct (z_subset_ a); check_chain.
Qed.

Lemma fails_early_sizes_vec a : fails_early (sizes_vec a).
Proof. unfold sizes_vec; destruct (x0_subset_ a); check_chain. Qed.

#[local] Hint Resolve fails_early_beta fails_early_residual
  fails_early_rowscale fails_early_colscale fails_early_subset
  fails_early_sizes_vec : checks.

(** Every failure of the checks ahead of the allocations is a precondition
    violation, and none of them is the dropout bound. *)
Lemma fails_early_check_args a : fails_early (check_args a).
Proof. unfold check_args; cbv zeta; check_chain. Qed.

Lemma check_args_fails_by_precondition (a : Args) (e : Error) :
  check_args a = Err e -> is_precondition_violation e = true.
Proof. intros H. apply (fails_early_check_args a e H). Qed.

Lemma size_ok_inv (t : Tensor) (d : nat) (n : Z) :
  size t d = Ok n -> nth_error (sizes t) d = Some n.
Proof.
  unfold size. destruct (nth_error (sizes t) d); intros H; inversion H.
  reflexivity.
Qed.

(** Passing the checks, condition by condition. *)
Lemma check_args_ok_inv (a : Args) (d : Dims) :
  check_args a = Ok d ->
  exists sz,
    sizes_vec a = Ok sz
    /\ d = mkDims sz (to_int (nth 0 sz 0)) (to_int (nth 1 sz 0))
             (numel (gamma a))
    /\ is_cuda (x0 a) = true
    /\ is_cuda (gamma a) = true
    /\ is_contiguous (x0 a) = true
    /\ dim (x0 a) = 2
    /\ numel (gamma a) = to_int (nth 1 sz 0)
    /\ check_beta a = Ok tt
    /\ check_residual a sz = Ok tt
    /\ check_rowscale a (to_int (nth 0 sz 0)) = Ok tt
    /\ check_colscale a (to_int (nth 1 sz 0)) = Ok tt
    /\ check_subset a (to_int (nth 0 sz 0)) = Ok tt
    /\ Z.rem (numel (gamma a)) 8 = 0
    /\ numel (gamma a) <= 8192
    /\ float_ge (epsilon a) float_zero = true.
Proof.
  unfold check_args. intros H.
  step_ok H as Hx0. step_ok H as Hg. step_ok H as Hx0c.
  apply rbind_ok_inv in H. destruct H as (sz & Hsz & H).
  step_ok H as Hdim. step_ok H as Hlen. step_ok H as Hhid.
  step_ok H as Hbeta. step_ok H as Hres. step_ok H as Hrow.
  step_ok H as Hcol. step_ok H as Hsub.
  step_ok H as Hrange. step_ok H as Heps.
  inversion H; subst d; clear H.
  apply Z.eqb_eq in Hdim. apply Z.eqb_eq in Hhid.
  apply andb_true_iff in Hrange. destruct Hrange as [Hrem Hle].
  apply Z.eqb_eq in Hrem. apply Z.leb_le in Hle.
  exists sz. repeat split; assumption.
Qed.

(** What passing the checks tells about the shapes. *)
Lemma check_args_dims (a : Args) (d : Dims) :
  check_args a = Ok d ->
  exists n0 n c,
    sizes (x0 a) = [n0; c]
    /\ match x0_subset_ a with
       | None => n = n0
       | Some x0_subset => nth_error (sizes x0_subset) 0 = Some n
       end
    /\ d_sizes d = [n; c]
    /\ d_rows d = to_int n
    /\ d_cols d = to_int c
    /\ d_hidden_size d = numel (gamma a)
    /\ d_hidden_size d = d_cols d.
Proof.
  intros H. apply check_args_ok_inv in H.
  destruct H as (sz & Hsz & -> & _ & _ & _ & Hdim & Hhid & _).
  cbn [d_sizes d_rows d_cols d_hidden_size].
  unfold sizes_vec in Hsz.
  apply rbind_ok_inv in Hsz. destruct Hsz as (n & Hn & Hsz).
  apply rbind_ok_inv in Hsz. destruct Hsz as (c & Hcs & Hsz).
  inversion Hsz; subst sz; clear Hsz.
  apply size_ok_inv in Hcs.
  unfold dim in Hdim.
  destruct (sizes (x0 a)) as [|n0 [|c0 [|? ?]]] eqn:Hx0;
    cbn [List.length] in Hdim; try lia.
  cbn in Hcs. inversion Hcs; subst c0; clear Hcs.
  cbn [nth] in *.
  exists n0, n, c. repeat split; try reflexivity; try assumption.
  destruct (x0_subset_ a) as [s|].
  - apply size_ok_inv in Hn. exact Hn.
  - apply size_ok_inv in Hn. rewrite Hx0 in Hn. cbn in Hn. congruence.
Qed.

(** The numeric-range checks. *)
Lemma check_args_range (a : Args) (d : Dims) :
  check_args a = Ok d ->
  Z.rem (d_hidden_size d) 8 = 0
  /\ d_hidden_size d <= 8192
  /\ float_ge (epsilon a) float_zero = true.
Proof.
  intros H. apply check_args_ok_inv in H.
  destruct H as (sz & _ & -> & H). cbn [d_hidden_size].
  tauto.
Qed.

(** The checks on the optional index buffers. *)
Lemma check_args_subset (a : Args) (d : Dims) :
  check_args a = Ok d -> check_subset a (d_rows d) = Ok tt.
Proof.
  intros H. apply check_args_ok_inv in H.
  destruct H as (sz & _ & -> & H). cbn [d_rows]. tauto.
Qed.

(* ------------------------------------------------------------------ *)
(** ** The dispatch key *)

Lemma lor_shiftl_add (a b n : Z) :
  0 <= n -> 0 <= a < 2 ^ n -> Z.lor a (Z.shiftl b n) = a + b * 2 ^ n.
Proof.
  intros Hn Ha.
  assert (Hdisj : Z.land a (Z.shiftl b n) = 0).
  { apply Z.bits_inj'. intros m Hm.
    rewrite Z.land_spec, Z.bits_0.
    destruct (Z.lt_ge_cases m n) as [Hlt|Hge].
    - rewrite (Z.shiftl_spec_low b n m Hlt). apply andb_false_r.
    - rewrite <- (Z.mod_small a (2 ^ n)) by lia.
      rewrite Z.mod_pow2_bits_high by lia. reflexivity. }
  rewrite <- Z.lxor_lor by exact Hdisj.
  rewrite <- Z.add_nocarry_lxor by exact Hdisj.
  rewrite Z.shiftl_mul_pow2 by exact Hn. reflexivity.
Qed.

Lemma lor_mul_add (a b n : Z) :
  0 <= n -> 0 <= a < 2 ^ n -> Z.lor a (b * 2 ^ n) = a + b * 2 ^ n.
Proof.
  intros Hn Ha. rewrite <- (lor_shiftl_add a b n) by assumption.
  rewrite Z.shiftl_mul_pow2 by exact Hn. reflexivity.
Qed.

Section KeyLayout.

Variables fp16 bf16 fp32 : Z.
Hypothesis two_bits : 0 <= fp16 < 4 /\ 0 <= bf16 < 4 /\ 0 <= fp32 < 4.

Let type_id := get_type_id fp16 bf16 fp32.
Let key := get_key fp16 bf16 fp32.

Lemma get_type_id_supported (d : Dtype) :
  supported d = true -> exists t, type_id d = Ok t /\ 0 <= t < 4.
Proof using two_bits.
  unfold type_id, get_type_id.
  destruct d; simpl; try discriminate; intros _; eexists; split;
    try reflexivity; lia.
Qed.

(** The key as a sum: the codes are the base-4 digits of its upper
    half. *)
Lemma get_key_sum (w i r o c : Dtype) (h : Z) (tw ti tr to tc : Z) :
  type_id w = Ok tw -> type_id i = Ok ti -> type_id r = Ok tr ->
  type_id o = Ok to -> type_id c = Ok tc ->
  0 <= tw < 4 -> 0 <= ti < 4 -> 0 <= tr < 4 -> 0 <= to < 4 ->
  0 <= tc < 4 -> 0 <= h < 2 ^ 32 ->
  key w i r o c h =
  Ok (h + (tw + 4 * ti + 16 * tr + 64 * to + 256 * tc) * 2 ^ 32).
Proof.
  unfold key, get_key, type_id. intros -> -> -> -> -> Hw Hi Hr Ho Hc Hh.
  cbn [rbind]. f_equal.
  unfold to_u32, to_u64.
  rewrite !Z.shiftl_mul_pow2 by lia.
  rewrite (Z.mod_small (ti * 2 ^ 2)) by lia.
  rewrite (Z.mod_small (tr * 2 ^ 4)) by lia.
  rewrite (Z.mod_small (to * 2 ^ 6)) by lia.
  rewrite (Z.mod_small (tc * 2 ^ 8)) by lia.
  rewrite (lor_mul_add tw ti 2) by lia.
  rewrite (lor_mul_add _ tr 4) by lia.
  rewrite (lor_mul_add _ to 6) by lia.
  rewrite (lor_mul_add _ tc 8) by lia.
  rewrite Z.mod_small by lia.
  rewrite Z.lor_comm.
  rewrite (lor_mul_add h _ 32) by lia.
  lia.
Qed.

Lemma hidden_field_sum (h t : Z) :
  0 <= h < 2 ^ 32 -> hidden_field (h + t * 2 ^ 32) = h.
Proof.
  intros Hh. unfold hidden_field. rewrite Z.land_ones by lia.
  rewrite Z.mod_add by lia. apply Z.mod_small; lia.
Qed.

Lemma type_field_sum (h t0 t1 t2 t3 t4 : Z) :
  0 <= h < 2 ^ 32 ->
  0 <= t0 < 4 -> 0 <= t1 < 4 -> 0 <= t2 < 4 -> 0 <= t3 < 4 ->
  0 <= t4 < 4 ->
  let k := h + (t0 + 4 * t1 + 16 * t2 + 64 * t3 + 256 * t4) * 2 ^ 32 in
  type_field k 0 = t0 /\ type_field k 1 = t1 /\ type_field k 2 = t2
  /\ type_field k 3 = t3 /\ type_field k 4 = t4.
Proof.
  intros Hh H0 H1 H2 H3 H4 k. unfold type_field.
  rewrite !Z.land_ones by lia. rewrite !Z.shiftr_div_pow2 by lia.
  subst k. cbn [Z.add Z.mul Pos.add Pos.mul Pos.succ].
  change (2 ^ 2) with 4.
  change (2 ^ 32) with 4294967296. change (2 ^ 34) with 17179869184.
  change (2 ^ 36) with 68719476736. change (2 ^ 38) with 274877906944.
  change (2 ^ 40) with 1099511627776.
  change (2 ^ 32) with 4294967296 in Hh.
  repeat split;
    match goal with
    | |- (?n / ?d) mod 4 = ?t =>
        pose proof (Z.div_mod n d ltac:(lia));
        pose proof (Z.mod_pos_bound n d ltac:(lia));
        pose proof (Z.div_mod (n / d) 4 ltac:(lia));
        pose proof (Z.mod_pos_bound (n / d) 4 ltac:(lia));
        lia
    end.
Qed.

End KeyLayout.

Lemma get_type_id_inj (fp16 bf16 fp32 : Z) (d d' : Dtype) (t : Z) :
  fp16 <> bf16 -> fp16 <> fp32 -> bf16 <> fp32 ->
  get_type_id fp16 bf16 fp32 d = Ok t ->
  get_type_id fp16 bf16 fp32 d' = Ok t -> d = d'.
Proof.
  intros H1 H2 H3. unfold get_type_id.
  destruct d, d'; simpl; intros Hd Hd'; try discriminate; try reflexivity;
    exfalso; congruence.
Qed.

(** C2.  The key builder is a function of its six inputs, and on the
    supported precisions with a hidden size that fits 32 bits it is
    injective: two keys are equal exactly when the inputs are.  A key fits
    64 bits, carries the hidden size in bits 0-31 and the code of each role
    in a 2-bit field of its own from bit 32 on (weight 32-33, input 34-35,
    residual 36-37, output 38-39, compute 40-41).  The type codes of [ln.h]
    are taken to be distinct 2-bit values. *)
Theorem get_key_injective_with_fixed_fields
    (fp16 bf16 fp32 : Z)
    (two_bits : 0 <= fp16 < 4 /\ 0 <= bf16 < 4 /\ 0 <= fp32 < 4)
    (distinct : fp16 <> bf16 /\ fp16 <> fp32 /\ bf16 <> fp32)
    (w i r o c w' i' r' o' c' : Dtype) (h h' : Z) :
  forallb supported [w; i; r; o; c] = true ->
  forallb supported [w'; i'; r'; o'; c'] = true ->
  0 <= h < 2 ^ 32 -> 0 <= h' < 2 ^ 32 ->
  exists k k',
    get_key fp16 bf16 fp32 w i r o c h = Ok k
    /\ get_key fp16 bf16 fp32 w' i' r' o' c' h' = Ok k'
    /\ (k = k' <-> (w, i, r, o, c, h) = (w', i', r', o', c', h'))
    /\ 0 <= k < 2 ^ 64
    /\ hidden_field k = h
    /\ get_type_id fp16 bf16 fp32 w = Ok (type_field k 0)
    /\ get_type_id fp16 bf16 fp32 i = Ok (type_field k 1)
    /\ get_type_id fp16 bf16 fp32 r = Ok (type_field k 2)
    /\ get_type_id fp16 bf16 fp32 o = Ok (type_field k 3)
    /\ get_type_id fp16 bf16 fp32 c = Ok (type_field k 4).
Proof.
  intros Hs Hs' Hh Hh'.
  cbn [forallb] in Hs, Hs'.
  repeat (apply andb_true_iff in Hs; destruct Hs as [? Hs]).
  repeat (apply andb_true_iff in Hs'; destruct Hs' as [? Hs']).
  destruct (get_type_id_supported fp16 bf16 fp32 two_bits w) as (tw & Ew & Bw);
    [assumption|].
  destruct (get_type_id_supported fp16 bf16 fp32 two_bits i) as (ti & Ei & Bi);
    [assumption|].
  destruct (get_type_id_supported fp16 bf16 fp32 two_bits r) as (tr & Er & Br);
    [assumption|].
  destruct (get_type_id_supported fp16 bf16 fp32 two_bits o) as (to & Eo & Bo);
    [assumption|].
  destruct (get_type_id_supported fp16 bf16 fp32 two_bits c) as (tc & Ec & Bc);
    [assumption|].
  destruct (get_type_id_supported fp16 bf16 fp32 two_bits w')
    as (tw' & Ew' & Bw'); [assumption|].
  destruct (get_type_id_supported fp16 bf16 fp32 two_bits i')
    as (ti' & Ei' & Bi'); [assumption|].
  destruct (get_type_id_supported fp16 bf16 fp32 two_bits r')
    as (tr' & Er' & Br'); [assumption|].
  destruct (get_type_id_supported fp16 bf16 fp32 two_bits o')
    as (to' & Eo' & Bo'); [assumption|].
  destruct (get_type_id_supported fp16 bf16 fp32 two_bits c')
    as (tc' & Ec' & Bc'); [assumption|].
  pose proof (get_key_sum fp16 bf16 fp32 w i r o c h tw ti tr to tc
                Ew Ei Er Eo Ec Bw Bi Br Bo Bc Hh) as Hk.
  pose proof (get_key_sum fp16 bf16 fp32 w' i' r' o' c' h' tw' ti' tr' to' tc'
                Ew' Ei' Er' Eo' Ec' Bw' Bi' Br' Bo' Bc' Hh') as Hk'.
  pose proof (type_field_sum h tw ti tr to tc Hh Bw Bi Br Bo Bc) as Hf.
  cbv zeta in Hf. destruct Hf as (F0 & F1 & F2 & F3 & F4).
  pose proof (hidden_field_sum h
                (tw + 4 * ti + 16 * tr + 64 * to + 256 * tc) Hh) as Fh.
  eexists; eexists.
  split; [exact Hk|]. split; [exact Hk'|].
  split; [|split; [|split; [exact Fh|]]].
  - split.
    + intros Heq.
      change (2 ^ 32) with 4294967296 in *.
      assert (h = h' /\ tw = tw' /\ ti = ti' /\ tr = tr' /\ to = to'
              /\ tc = tc') as (-> & -> & -> & -> & -> & ->) by lia.
      destruct distinct as (D1 & D2 & D3).
      rewrite (get_type_id_inj fp16 bf16 fp32 w w' tw' D1 D2 D3 Ew Ew').
      rewrite (get_type_id_inj fp16 bf16 fp32 i i' ti' D1 D2 D3 Ei Ei').
      rewrite (get_type_id_inj fp16 bf16 fp32 r r' tr' D1 D2 D3 Er Er').
      rewrite (get_type_id_inj fp16 bf16 fp32 o o' to' D1 D2 D3 Eo Eo').
      rewrite (get_type_id_inj fp16 bf16 fp32 c c' tc' D1 D2 D3 Ec Ec').
      reflexivity.
    + intros Heq. inversion Heq; subst.
      rewrite Ew in Ew'; rewrite Ei in Ei'; rewrite Er in Er';
        rewrite Eo in Eo'; rewrite Ec in Ec'.
      congruence.
  - change (2 ^ 32) with 4294967296 in *.
    change (2 ^ 64) with 18446744073709551616. lia.
  - rewrite F0, F1, F2, F3, F4. auto.
Qed.

(** The theorem at the codes 0, 1, 2: an fp16 and a bf16 configuration of
    hidden size 1024. *)
Lemma get_key_injective_with_fixed_fields_witness :
  exists k k',
    get_key 0 1 2 kFloat16 kFloat16 kFloat32 kFloat16 kFloat32 1024 = Ok k
    /\ get_key 0 1 2 kBFloat16 kBFloat16 kFloat32 kBFloat16 kFloat32 1024
       = Ok k'
    /\ k <> k'
    /\ hidden_field k = 1024
    /\ type_field k 2 = 2.
Proof.
  destruct (get_key_injective_with_fixed_fields 0 1 2
              ltac:(lia) ltac:(lia)
              kFloat16 kFloat16 kFloat32 kFloat16 kFloat32
              kBFloat16 kBFloat16 kFloat32 kBFloat16 kFloat32 1024 1024
              eq_refl eq_refl ltac:(lia) ltac:(lia))
    as (k & k' & Hk & Hk' & Hinj & _ & Hh & _ & _ & Hr & _).
  exists k, k'. repeat split; try assumption.
  - intros Heq. apply Hinj in Heq. discriminate Heq.
  - inversion Hr. reflexivity.
Defined.

(* ------------------------------------------------------------------ *)
(** ** Resolution *)

Lemma get_key_supported (fp16 bf16 fp32 : Z) (w i r o c : Dtype) (h : Z) :
  forallb supported [w; i; r; o; c] = true ->
  exists k, get_key fp16 bf16 fp32 w i r o c h = Ok k.
Proof.
  cbn [forallb]. intros H.
  repeat (apply andb_true_iff in H; destruct H as [? H]).
  unfold get_key, get_type_id.
  destruct w; try discriminate; destruct i; try discriminate;
    destruct r; try discriminate; destruct o; try discriminate;
    destruct c; try discriminate; cbn; eexists; reflexivity.
Qed.

(** C4.  Resolution is a lookup of the dispatch key and nothing else: with
    the key of the five (supported) precisions and the hidden size in the
    registry, the launcher registered under it is returned; with the key
    absent, the call fails with the unsupported-configuration error that
    carries the hidden size and the five precisions; and a launcher is only
    ever returned when it is the one registered under that very key. *)
Theorem get_fwd_launcher_exact_match
    (fp16 bf16 fp32 : Z) (FWD_FUNCS : gmap Z FwdFunction)
    (w i r o c : Dtype) (h : Z) :
  forallb supported [w; i; r; o; c] = true ->
  exists k,
    get_key fp16 bf16 fp32 w i r o c h = Ok k
    /\ (forall f, FWD_FUNCS !! k = Some f ->
          get_fwd_launcher fp16 bf16 fp32 FWD_FUNCS w i r o c h = Ok f)
    /\ (FWD_FUNCS !! k = None ->
          get_fwd_launcher fp16 bf16 fp32 FWD_FUNCS w i r o c h
          = Err (UnsupportedHiddenSizeOrTypes h w i r o c)
          /\ is_unsupported_configuration
               (UnsupportedHiddenSizeOrTypes h w i r o c) = true)
    /\ (forall f,
          get_fwd_launcher fp16 bf16 fp32 FWD_FUNCS w i r o c h = Ok f ->
          FWD_FUNCS !! k = Some f).
Proof.
  intros Hs.
  destruct (get_key_supported fp16 bf16 fp32 w i r o c h Hs) as (k & Hk).
  exists k. unfold get_fwd_launcher. rewrite Hk. cbn [rbind].
  split; [reflexivity|]. split; [|split].
  - intros f Hf. rewrite Hf. reflexivity.
  - intros Hn. rewrite Hn. split; reflexivity.
  - intros f. destruct (FWD_FUNCS !! k) as [g|]; intros H; inversion H.
    reflexivity.
Qed.

(** The theorem on the registry of the scenario: fp32 throughout resolves
    at 256 and is refused at 512. *)
Lemma get_fwd_launcher_exact_match_witness :
  get_fwd_launcher 0 1 2 Scenario.registry
    kFloat32 kFloat32 kFloat32 kFloat32 kFloat32 256
  = Ok Scenario.launcher_small
  /\ get_fwd_launcher 0 1 2 Scenario.registry
       kFloat32 kFloat32 kFloat32 kFloat32 kFloat32 512
     = Err (UnsupportedHiddenSizeOrTypes 512
              kFloat32 kFloat32 kFloat32 kFloat32 kFloat32).
Proof.
  split.
  - destruct (get_fwd_launcher_exact_match 0 1 2 Scenario.registry
                kFloat32 kFloat32 kFloat32 kFloat32 kFloat32 256 eq_refl)
      as (k & Hk & Hhit & _).
    apply Hhit. inversion Hk. vm_compute. reflexivity.
  - destruct (get_fwd_launcher_exact_match 0 1 2 Scenario.registry
                kFloat32 kFloat32 kFloat32 kFloat32 kFloat32 512 eq_refl)
      as (k & Hk & _ & Hmiss & _).
    apply Hmiss. inversion Hk. vm_compute. reflexivity.
Defined.

(* ------------------------------------------------------------------ *)
(** ** How a call ends *)

Section Outcome.

Variables fp16 bf16 fp32 : Z.
Variable FWD_FUNCS : gmap Z FwdFunction.

Let run := dropout_add_ln_fwd fp16 bf16 fp32 FWD_FUNCS.

(** A completed call passed the checks and the dropout bound, resolved
    its launcher, and did exactly [call_events]. *)
Lemma run_ok_inv (a : Args) (w w' : World) (out : list (option Tensor)) :
  run a w = (Ok out, w') ->
  exists d f,
    check_args a = Ok d
    /\ float_lt (dropout_p a) float_one = true
    /\ resolve_for fp16 bf16 fp32 FWD_FUNCS a d = Ok f
    /\ out = outputs a d
    /\ w' = after_call a d f w.
Proof.
  unfold run. rewrite run_unfold.
  destruct (check_args a) as [d|e]; [|discriminate].
  destruct (float_lt (dropout_p a) float_one); [|discriminate].
  destruct (resolve_for fp16 bf16 fp32 FWD_FUNCS a d) as [f|e] eqn:Hr;
    [|discriminate].
  intros H; inversion H; subst. exists d, f. auto.
Qed.

(** A failed call failed in the checks, with the world untouched, or
    after the outputs were allocated: at the dropout bound or in the
    resolution. *)
Lemma run_err_inv (a : Args) (w w' : World) (e : Error) :
  run a w = (Err e, w') ->
  (check_args a = Err e /\ w' = w)
  \/ exists d,
       check_args a = Ok d /\ w' = after_allocs a d w
       /\ ((float_lt (dropout_p a) float_one = false
            /\ e = CheckFailed dropout_bound)
           \/ (float_lt (dropout_p a) float_one = true
               /\ resolve_for fp16 bf16 fp32 FWD_FUNCS a d = Err e)).
Proof.
  unfold run. rewrite run_unfold.
  destruct (check_args a) as [d|e0].
  - destruct (float_lt (dropout_p a) float_one).
    + destruct (resolve_for fp16 bf16 fp32 FWD_FUNCS a d) as [f|e1] eqn:Hr;
        [discriminate|].
      intros H; inversion H; subst. right. exists d. auto.
    + intros H; inversion H; subst. right. exists d. auto.
  - intros H; inversion H; subst. left. auto.
Qed.


End Outcome.

Lemma launches_app (l1 l2 : list Event) :
  launches (l1 ++ l2) = launches l1 ++ launches l2.
Proof.
  induction l1 as [|e l1 IH]; [reflexivity|].
  destruct e; cbn [launches app]; rewrite IH; reflexivity.
Qed.

Lemma allocations_app (l1 l2 : list Event) :
  allocations (l1 ++ l2) = allocations l1 ++ allocations l2.
Proof.
  induction l1 as [|e l1 IH]; [reflexivity|].
  destruct e; cbn [allocations app]; rewrite IH; reflexivity.
Qed.

Lemma launches_In (l : list Event) (f : FwdFunction) (q : bool)
    (lp : LaunchParams) :
  In (f, q, lp) (launches l) -> In (Launch f q lp) l.
Proof.
  induction l as [|e l IH]; [intros []|].
  destruct e as [b zd sh dt|g q' lp'|g n]; cbn [launches In].
  - intros H. right. exact (IH H).
  - intros [H|H]; [left; inversion H; reflexivity | right; exact (IH H)].
  - intros H. right. exact (IH H).
Qed.

Lemma launches_output_allocs (a : Args) (d : Dims) :
  launches (output_allocs a d) = [].
Proof.
  unfold output_allocs.
  destruct (save_x a), (float_gt (dropout_p a) float_zero); reflexivity.
Qed.

Lemma launches_call_events (a : Args) (d : Dims) (f : FwdFunction)
    (w : World) :
  launches (call_events a d f w)
  = [(f, true, query_params a d); (f, false, execute_params a d f w)].
Proof.
  unfold call_events. rewrite !launches_app, launches_output_allocs.
  unfold generator_events, scratch_events.
  destruct (float_gt (dropout_p a) float_zero);
    destruct (0 <? layer_norm.barrier_size (f (query_params a d) true));
    reflexivity.
Qed.

(* ------------------------------------------------------------------ *)
(** ** Rounding of the hidden size *)

Lemma to_int_small (z : Z) : - 2 ^ 31 <= z < 2 ^ 31 -> to_int z = z.
Proof. intros H. unfold to_int. rewrite Z.mod_small; lia. Qed.

Lemma round_multiple_spec (x m : Z) :
  0 <= x -> 0 < m -> x + m < 2 ^ 31 ->
  round_multiple x m mod m = 0
  /\ x <= round_multiple x m < x + m.
Proof.
  intros Hx Hm Hb. unfold round_multiple.
  rewrite (to_int_small (x + m)) by lia.
  rewrite (to_int_small (x + m - 1)) by lia.
  rewrite Z.quot_div_nonneg by lia.
  pose proof (Z.div_mod (x + m - 1) m ltac:(lia)) as Hdm.
  pose proof (Z.mod_pos_bound (x + m - 1) m Hm) as Hmb.
  assert (0 <= (x + m - 1) / m) by (apply Z.div_pos; lia).
  rewrite (to_int_small ((x + m - 1) / m)) by nia.
  rewrite (to_int_small ((x + m - 1) / m * m)) by nia.
  split.
  - apply Z.mod_mul; lia.
  - nia.
Qed.

Lemma multiple_cases (h : Z) :
  (h <= 1536 /\ multiple h = 256)
  \/ (1536 < h <= 3072 /\ multiple h = 512)
  \/ (3072 < h /\ multiple h = 1024).
Proof.
  unfold multiple.
  destruct (Z.leb_spec h 1536); [left; lia|].
  destruct (Z.leb_spec h 3072); [right; left; lia | right; right; lia].
Qed.

(** For the hidden sizes that get past the checks, the size the launcher
    is asked for is the least multiple of the bucket granularity that is
    not below the hidden size. *)
Lemma launcher_hidden_size_spec (h : Z) :
  0 <= h <= 8192 ->
  launcher_hidden_size h mod multiple h = 0
  /\ h <= launcher_hidden_size h < h + multiple h.
Proof.
  intros Hh. unfold launcher_hidden_size.
  rewrite (to_int_small h) by lia.
  assert (Hm : 0 < multiple h <= 1024)
    by (destruct (multiple_cases h) as [[_ ->]|[[_ ->]|[_ ->]]]; lia).
  destruct (round_multiple_spec h (multiple h)) as (Hmod & Hr); try lia.
  unfold to_u32.
  rewrite (Z.mod_small (round_multiple h (multiple h)) (2 ^ 32)) by lia.
  auto.
Qed.

Lemma get_fwd_launcher_ok_inv (fp16 bf16 fp32 : Z)
    (FWD_FUNCS : gmap Z FwdFunction) (w i r o c : Dtype) (h : Z)
    (f : FwdFunction) :
  get_fwd_launcher fp16 bf16 fp32 FWD_FUNCS w i r o c h = Ok f ->
  exists k, get_key fp16 bf16 fp32 w i r o c h = Ok k
            /\ FWD_FUNCS !! k = Some f.
Proof.
  unfold get_fwd_launcher.
  destruct (get_key fp16 bf16 fp32 w i r o c h) as [k|e]; cbn [rbind];
    [|discriminate].
  destruct (FWD_FUNCS !! k) as [g|] eqn:Hk; intros H; inversion H; subst.
  exists k. auto.
Qed.

Lemma get_fwd_launcher_unsupported_inv (fp16 bf16 fp32 : Z)
    (FWD_FUNCS : gmap Z FwdFunction) (w i r o c : Dtype) (h : Z)
    (hs : Z) (w' i' r' o' c' : Dtype) :
  get_fwd_launcher fp16 bf16 fp32 FWD_FUNCS w i r o c h
  = Err (UnsupportedHiddenSizeOrTypes hs w' i' r' o' c') ->
  hs = h /\ (w', i', r', o', c') = (w, i, r, o, c)
  /\ exists k, get_key fp16 bf16 fp32 w i r o c h = Ok k
               /\ FWD_FUNCS !! k = None.
Proof.
  unfold get_fwd_launcher.
  destruct (get_key fp16 bf16 fp32 w i r o c h) as [k|e] eqn:Hk;
    cbn [rbind].
  - destruct (FWD_FUNCS !! k) as [g|] eqn:Hl; intros H; inversion H; subst.
    repeat split. exists k. auto.
  - intros H; inversion H; subst.
    unfold get_key, get_type_id in Hk.
    repeat match type of Hk with
           | context [decide (?x = ?y)] => destruct (decide (x = y))
           end; cbn [rbind] in Hk; discriminate.
Qed.

(** C3.  The launcher is looked up under the rounded hidden size, never
    under any other value: with [h] the hidden size (the weight's element
    count) and the granularity 256 for [h <= 1536], 512 for [h <= 3072]
    and 1024 above, a completed call has found its launcher in the
    registry under the key of its five precisions and the least multiple
    of the granularity not below [h], and has invoked that launcher and no
    other; a call refused by the resolver is refused for that same rounded
    size. *)
Theorem lookup_uses_rounded_hidden_size
    (fp16 bf16 fp32 : Z) (FWD_FUNCS : gmap Z FwdFunction)
    (a : Args) (w w' : World) (res : Result (list (option Tensor))) :
  0 <= numel (gamma a) ->
  dropout_add_ln_fwd fp16 bf16 fp32 FWD_FUNCS a w = (res, w') ->
  let h := numel (gamma a) in
  let m := if h <=? 1536 then 256 else if h <=? 3072 then 512 else 1024 in
  match res with
  | Ok _ =>
      exists r k f events,
        r mod m = 0 /\ h <= r < h + m
        /\ get_key fp16 bf16 fp32 (wtype_of a) (itype_of a) (rtype_of a)
             (otype_of a) ctype r = Ok k
        /\ FWD_FUNCS !! k = Some f
        /\ log w' = log w ++ events
        /\ map (fun l => fst (fst l)) (launches events) = [f; f]
  | Err (UnsupportedHiddenSizeOrTypes hs _ _ _ _ _) =>
      hs mod m = 0 /\ h <= hs < h + m
      /\ exists k,
           get_key fp16 bf16 fp32 (wtype_of a) (itype_of a) (rtype_of a)
             (otype_of a) ctype hs = Ok k
           /\ FWD_FUNCS !! k = None
  | Err _ => True
  end.
Proof.
  intros Hnn Hrun h m.
  assert (Hround : forall d, check_args a = Ok d ->
            d_hidden_size d = h
            /\ launcher_hidden_size h mod m = 0
            /\ h <= launcher_hidden_size h < h + m).
  { intros d Hd.
    destruct (check_args_dims a d Hd)
      as (n0 & n & c & _ & _ & _ & _ & _ & Hh & _).
    destruct (check_args_range a d Hd) as (_ & Hle & _).
    rewrite Hh in Hle. split; [exact Hh|].
    apply (launcher_hidden_size_spec h). subst h. lia. }
  destruct res as [out|e].
  - apply run_ok_inv in Hrun.
    destruct Hrun as (d & f & Hd & _ & Hres & _ & ->).
    destruct (Hround d Hd) as (Hh & Hmod & Hr).
    unfold resolve_for in Hres. rewrite Hh in Hres.
    apply get_fwd_launcher_ok_inv in Hres. destruct Hres as (k & Hk & Hl).
    exists (launcher_hidden_size h), k, f, (call_events a d f w).
    repeat split; try assumption; try lia.
    rewrite launches_call_events. reflexivity.
  - destruct e; try exact I.
    apply run_err_inv in Hrun.
    destruct Hrun as [[Hc _]|(d & Hd & _ & [[_ He]|[_ Hres]])].
    + apply check_args_fails_by_precondition in Hc. discriminate Hc.
    + discriminate He.
    + destruct (Hround d Hd) as (Hh & Hmod & Hr).
      unfold resolve_for in Hres. rewrite Hh in Hres.
      apply get_fwd_launcher_unsupported_inv in Hres.
      destruct Hres as (-> & Heq & k & Hk & Hl).
      repeat split; try assumption; try lia.
      exists k. auto.
Qed.

(* ------------------------------------------------------------------ *)
(** ** What the launcher is trusted with *)

Lemma resolve_for_registered (fp16 bf16 fp32 : Z)
    (FWD_FUNCS : gmap Z FwdFunction) (a : Args) (d : Dims)
    (f : FwdFunction) :
  resolve_for fp16 bf16 fp32 FWD_FUNCS a d = Ok f ->
  exists k, FWD_FUNCS !! k = Some f.
Proof.
  unfold resolve_for. intros H. apply get_fwd_launcher_ok_inv in H.
  destruct H as (k & _ & Hk). exists k. exact Hk.
Qed.

(* ------------------------------------------------------------------ *)
(** ** The saved intermediate *)



Lemma allocations_call_events (a : Args) (d : Dims) (f : FwdFunction)
    (w : World) :
  allocations (call_events a d f w)
  = (if save_x a then [buf_x] else [])
    ++ (if float_gt (dropout_p a) float_zero then [buf_dmask] else [])
    ++ [buf_z; buf_mu; buf_rsigma]
    ++ (if 0 <? layer_norm.barrier_size (f (query_params a d) true)
        then [buf_barrier; buf_workspace] else []).
Proof.
  unfold call_events, output_allocs, generator_events, scratch_events.
  destruct (save_x a), (float_gt (dropout_p a) float_zero),
    (0 <? layer_norm.barrier_size (f (query_params a d) true));
    reflexivity.
Qed.




(* ------------------------------------------------------------------ *)
(** ** The index buffers *)

(** What the checks establish of a present row-gather index. *)
Lemma check_subset_gather (a : Args) (rows : Z) (x0_subset : Tensor) :
  x0_subset_ a = Some x0_subset ->
  check_subset a rows = Ok tt ->
  exists z_subset,
    z_subset_ a = Some z_subset
    /\ is_cuda x0_subset = true /\ is_contiguous x0_subset = true
    /\ sizes x0_subset = [rows] /\ scalar_type x0_subset = kInt32
    /\ is_cuda z_subset = true /\ is_contiguous z_subset = true
    /\ sizes z_subset = [rows] /\ scalar_type z_subset = kInt32.
Proof.
  unfold check_subset. intros -> H.
  step_ok H as Hx1. step_ok H as Hx2. step_ok H as Hx3. step_ok H as Hx4.
  step_ok H as Hz0.
  destruct (z_subset_ a) as [z_subset|]; [|discriminate Hz0].
  step_ok H as Hz1. step_ok H as Hz2. step_ok H as Hz3.
  apply TORCH_CHECK_ok_inv in H.
  apply bool_decide_eq_true in Hx3, Hx4, Hz3, H.
  exists z_subset. repeat split; assumption.
Qed.

(** C10.  With a row-gather index and an active dropout, a returning call
    hands back a mask of the extent of the whole input (its first
    dimension by its columns), while the saved intermediate, the row means
    and the row inverse deviations have as many rows as the gather index
    has entries; the output has the row count the caller gave for the
    scatter target.  So the mask alone follows the rows of the input. *)
Theorem mask_follows_input_rows
    (fp16 bf16 fp32 : Z) (FWD_FUNCS : gmap Z FwdFunction)
    (a : Args) (w w' : World) (out : list (option Tensor))
    (x0_subset : Tensor) :
  x0_subset_ a = Some x0_subset ->
  float_gt (dropout_p a) float_zero = true ->
  dropout_add_ln_fwd fp16 bf16 fp32 FWD_FUNCS a w = (Ok out, w') ->
  exists n0 c n z x dmask mu rsigma,
    sizes (x0 a) = [n0; c]
    /\ sizes x0_subset = [n]
    /\ out = [Some z; Some x; Some dmask; Some mu; Some rsigma]
    /\ sizes dmask = [n0; c]
    /\ sizes x = [n; c]
    /\ sizes mu = [n]
    /\ sizes rsigma = [n]
    /\ sizes z = [z_numrows a; numel (gamma a)].
Proof.
  intros Hsub Hdp Hrun. apply run_ok_inv in Hrun.
  destruct Hrun as (d & f & Hd & _ & _ & -> & _).
  destruct (check_args_dims a d Hd)
    as (n0 & n & c & Hx0 & Hn & Hsz & Hrows & Hcols & Hhid & Hhc).
  pose proof (check_args_subset a d Hd) as Hcs.
  destruct (check_subset_gather a (d_rows d) x0_subset Hsub Hcs)
    as (z_subset & Hz & _ & _ & Hss & _ & _ & _ & _ & _).
  rewrite Hsub in Hn. rewrite Hss in Hn. cbn in Hn.
  assert (Hrn : d_rows d = n) by congruence.
  unfold outputs, out_x, out_dmask, out_z, out_mu, out_rsigma, z_shape,
    save_x, fresh.
  rewrite Hsub, Hz, Hdp. cbn [has_value orb].
  rewrite orb_true_r. cbn [orb].
  exists n0, c, n. do 5 eexists.
  split; [exact Hx0|]. split; [congruence|]. split; [reflexivity|].
  cbn [sizes]. rewrite Hrn, Hsz, Hx0, <- Hhid, Hhc.
  repeat split; reflexivity.
Qed.

(* ------------------------------------------------------------------ *)
(** ** The two invocations and what lies between them *)

Lemma execute_params_scratch (a : Args) (d : Dims) (f : FwdFunction)
    (w : World) :
  let reported := f (query_params a d) true in
  let p := layer_norm.params (execute_params a d f w) in
  if 0 <? layer_norm.barrier_size reported
  then layer_norm.workspace p = Some (FreshBuffer buf_workspace)
       /\ layer_norm.barrier p = Some (FreshBuffer buf_barrier)
  else layer_norm.workspace p
       = layer_norm.workspace (layer_norm.params reported)
       /\ layer_norm.barrier p
          = layer_norm.barrier (layer_norm.params reported).
Proof.
  cbv zeta. unfold execute_params, with_scratch, with_generator.
  destruct (float_gt (dropout_p a) float_zero);
    cbn [layer_norm.barrier_size layer_norm.with_params];
    destruct (0 <? layer_norm.barrier_size (f (query_params a d) true));
    split; reflexivity.
Qed.

(** C7.  A call that returns has invoked the launcher it resolved twice
    and no more: first configuring, then executing, and the executing
    invocation is the last thing the call does.  Ahead of the configuring
    invocation lie only the allocations of the outputs; between the two
    lie the generator request, if any, and the scratch allocations.  The
    barrier and the workspace are allocated, there and only there, when
    the configuring invocation reported a positive barrier size, the
    barrier zero-filled, and the executing invocation is handed both;
    otherwise nothing is allocated between the invocations and both of
    them are handed null scratch references.  The launchers of the
    registry are taken to leave the scratch references alone when
    configuring. *)
Theorem query_then_execute
    (fp16 bf16 fp32 : Z) (FWD_FUNCS : gmap Z FwdFunction)
    (a : Args) (w w' : World) (out : list (option Tensor)) :
  (forall k f, FWD_FUNCS !! k = Some f ->
     query_keeps layer_norm.workspace f /\ query_keeps layer_norm.barrier f) ->
  dropout_add_ln_fwd fp16 bf16 fp32 FWD_FUNCS a w = (Ok out, w') ->
  exists d f lp_query lp_execute before between_rng between_scratch,
    check_args a = Ok d
    /\ get_fwd_launcher fp16 bf16 fp32 FWD_FUNCS
         (wtype_of a) (itype_of a) (rtype_of a) (otype_of a) ctype
         (launcher_hidden_size (d_hidden_size d)) = Ok f
    /\ log w' = log w ++ before ++ [Launch f true lp_query]
                ++ between_rng ++ between_scratch
                ++ [Launch f false lp_execute]
    /\ launches before = []
    /\ ~ In buf_barrier (allocations before)
    /\ ~ In buf_workspace (allocations before)
    /\ launches between_rng = [] /\ allocations between_rng = []
    /\ layer_norm.workspace (layer_norm.params lp_query) = None
    /\ layer_norm.barrier (layer_norm.params lp_query) = None
    /\ let reported := f lp_query true in
       (0 < layer_norm.barrier_size reported ->
          between_scratch
          = [Alloc buf_barrier true
               [to_i64 (layer_norm.barrier_size reported)] kInt32;
             Alloc buf_workspace false
               [to_i64 (layer_norm.workspace_bytes reported)] kChar]
          /\ layer_norm.barrier (layer_norm.params lp_execute)
             = Some (FreshBuffer buf_barrier)
          /\ layer_norm.workspace (layer_norm.params lp_execute)
             = Some (FreshBuffer buf_workspace))
       /\ (layer_norm.barrier_size reported <= 0 ->
             between_scratch = []
             /\ layer_norm.barrier (layer_norm.params lp_execute) = None
             /\ layer_norm.workspace (layer_norm.params lp_execute) = None).
Proof.
  intros Hreg Hrun. apply run_ok_inv in Hrun.
  destruct Hrun as (d & f & Hd & _ & Hres & _ & ->).
  destruct (resolve_for_registered _ _ _ _ _ _ _ Hres) as (k & Hk).
  destruct (Hreg k f Hk) as (Hkw & Hkb).
  exists d, f, (query_params a d), (execute_params a d f w),
    (output_allocs a d), (generator_events a (f (query_params a d) true)),
    (scratch_events (f (query_params a d) true)).
  split; [exact Hd|]. split; [exact Hres|].
  split; [reflexivity|].
  split; [apply launches_output_allocs|].
  assert (Hal : allocations (output_allocs a d)
                = (if save_x a then [buf_x] else [])
                  ++ (if float_gt (dropout_p a) float_zero
                      then [buf_dmask] else [])
                  ++ [buf_z; buf_mu; buf_rsigma]).
  { unfold output_allocs.
    destruct (save_x a), (float_gt (dropout_p a) float_zero); reflexivity. }
  split.
  { rewrite Hal.
    destruct (save_x a), (float_gt (dropout_p a) float_zero); cbn [app In];
      intros H; repeat (destruct H as [H|H]; try discriminate H);
      contradiction. }
  split.
  { rewrite Hal.
    destruct (save_x a), (float_gt (dropout_p a) float_zero); cbn [app In];
      intros H; repeat (destruct H as [H|H]; try discriminate H);
      contradiction. }
  split; [unfold generator_events;
          destruct (float_gt (dropout_p a) float_zero); reflexivity|].
  split; [unfold generator_events;
          destruct (float_gt (dropout_p a) float_zero); reflexivity|].
  split; [reflexivity|]. split; [reflexivity|].
  cbv zeta.
  pose proof (execute_params_scratch a d f w) as Hex. cbv zeta in Hex.
  unfold scratch_events.
  destruct (Z.ltb_spec 0
              (layer_norm.barrier_size (f (query_params a d) true)))
    as [Hpos|Hnpos].
  - split; [|lia]. intros _. destruct Hex as (Hw & Hb). auto.
  - split; [lia|]. intros _. destruct Hex as (Hw & Hb).
    rewrite Hw, Hb, Hkw, Hkb. auto.
Qed.

(* ------------------------------------------------------------------ *)
(** ** The generator *)

Lemma to_u64_to_i64 (n : Z) : 0 <= n < 2 ^ 64 -> to_u64 (to_i64 n) = n.
Proof.
  intros Hn. unfold to_u64, to_i64.
  change (2 ^ 64) with 18446744073709551616 in *.
  change (2 ^ 63) with 9223372036854775808.
  pose proof (Z.div_mod (n + 9223372036854775808) 18446744073709551616
                ltac:(lia)) as H1.
  pose proof (Z.mod_pos_bound (n + 9223372036854775808)
                18446744073709551616 ltac:(lia)) as H2.
  set (r := (n + 9223372036854775808) mod 18446744073709551616) in *.
  set (q := (n + 9223372036854775808) / 18446744073709551616) in *.
  assert (Hr : r - 9223372036854775808 = n - q * 18446744073709551616)
    by lia.
  rewrite Hr.
  rewrite <- (Z.add_opp_r n), <- Z.mul_opp_l, Z.mod_add by lia.
  apply Z.mod_small. lia.
Qed.

Lemma requests_call_events (a : Args) (d : Dims) (f : FwdFunction)
    (w : World) :
  requests (call_events a d f w)
  = if float_gt (dropout_p a) float_zero
    then [(get_generator_or_default (gen_ a),
           draws (f (query_params a d) true))]
    else [].
Proof.
  unfold call_events, output_allocs, generator_events, scratch_events.
  destruct (save_x a), (float_gt (dropout_p a) float_zero),
    (0 <? layer_norm.barrier_size (f (query_params a d) true));
    reflexivity.
Qed.

Lemma execute_params_philox (a : Args) (d : Dims) (f : FwdFunction)
    (w : World) :
  float_gt (dropout_p a) float_zero = true ->
  layer_norm.philox_args (layer_norm.params (execute_params a d f w))
  = Some (mkPhilox
            (seed_ (generators w (get_generator_or_default (gen_ a))))
            (philox_offset_per_thread_
               (generators w (get_generator_or_default (gen_ a))))).
Proof.
  intros Hdp. unfold execute_params, with_scratch, with_generator.
  rewrite Hdp. cbn [layer_norm.barrier_size layer_norm.with_params].
  destruct (0 <? layer_norm.barrier_size (f (query_params a d) true));
    reflexivity.
Qed.

(** The state a generator is in once a call has returned. *)
Lemma generators_after_call (a : Args) (d : Dims) (f : FwdFunction)
    (w : World) (g : GenRef) :
  generators (after_call a d f w) g
  = if float_gt (dropout_p a) float_zero
    then if decide (g = get_generator_or_default (gen_ a))
         then mkGenerator (seed_ (generators w g))
                (philox_offset_per_thread_ (generators w g)
                 + draws (f (query_params a d) true))
         else generators w g
    else generators w g.
Proof.
  unfold after_call, generators_after. cbn [generators].
  destruct (float_gt (dropout_p a) float_zero); [|reflexivity].
  destruct (decide (g = get_generator_or_default (gen_ a))) as [->|];
    reflexivity.
Qed.

(** C8.  In a call that returns, the generator is asked for a seed/offset
    pair exactly when the dropout probability is above 0; the request is
    for the number of draws per thread the configuring invocation
    reported, the pair handed to the executing invocation is the
    generator's seed and its counter as they stood, and the counter has
    then advanced by exactly that number; with a dropout probability not
    above 0 no generator is touched.  Hence for two calls in a row on one
    generator, both with dropout, the offset of the second is the offset
    of the first plus the draws of the first, never less.  The launchers
    of the registry are taken to report [size_t] values. *)
Theorem generator_advanced_by_draws
    (fp16 bf16 fp32 : Z) (FWD_FUNCS : gmap Z FwdFunction)
    (a : Args) (w w' : World) (out : list (option Tensor)) :
  (forall k f, FWD_FUNCS !! k = Some f -> reports_sizes f) ->
  dropout_add_ln_fwd fp16 bf16 fp32 FWD_FUNCS a w = (Ok out, w') ->
  exists f lp_query lp_execute events,
    log w' = log w ++ events
    /\ launches events = [(f, true, lp_query); (f, false, lp_execute)]
    /\ let g := get_generator_or_default (gen_ a) in
       let n := layer_norm.elts_per_thread (f lp_query true) in
       (float_gt (dropout_p a) float_zero = true <-> requests events <> [])
       /\ (float_gt (dropout_p a) float_zero = true ->
             requests events = [(g, n)]
             /\ 0 <= n
             /\ layer_norm.philox_args (layer_norm.params lp_execute)
                = Some (mkPhilox (seed_ (generators w g))
                          (philox_offset_per_thread_ (generators w g)))
             /\ generators w' g
                = mkGenerator (seed_ (generators w g))
                    (philox_offset_per_thread_ (generators w g) + n)
             /\ forall g', g' <> g -> generators w' g' = generators w g')
       /\ (float_gt (dropout_p a) float_zero = false ->
             forall g', generators w' g' = generators w g')
       /\ forall a2 w2 out2,
            dropout_add_ln_fwd fp16 bf16 fp32 FWD_FUNCS a2 w' = (Ok out2, w2) ->
            get_generator_or_default (gen_ a2) = g ->
            float_gt (dropout_p a) float_zero = true ->
            float_gt (dropout_p a2) float_zero = true ->
            exists f2 lp_query2 lp_execute2 events2 st1 st2,
              log w2 = log w' ++ events2
              /\ launches events2
                 = [(f2, true, lp_query2); (f2, false, lp_execute2)]
              /\ layer_norm.philox_args (layer_norm.params lp_execute)
                 = Some st1
              /\ layer_norm.philox_args (layer_norm.params lp_execute2)
                 = Some st2
              /\ philox_seed st2 = philox_seed st1
              /\ philox_offset st2 = philox_offset st1 + n
              /\ philox_offset st2 >= philox_offset st1 + n.
Proof.
  intros Hreg Hrun. apply run_ok_inv in Hrun.
  destruct Hrun as (d & f & Hd & _ & Hres & _ & ->).
  destruct (resolve_for_registered _ _ _ _ _ _ _ Hres) as (k & Hk).
  pose proof (Hreg k f Hk (query_params a d)) as (Helts & _).
  assert (Hdraws : draws (f (query_params a d) true)
                   = layer_norm.elts_per_thread (f (query_params a d) true))
    by (apply to_u64_to_i64; exact Helts).
  exists f, (query_params a d), (execute_params a d f w),
    (call_events a d f w).
  split; [reflexivity|]. split; [apply launches_call_events|].
  cbv zeta. rewrite requests_call_events, Hdraws.
  split; [|split; [|split; [|]]].
  - destruct (float_gt (dropout_p a) float_zero); split; congruence.
  - intros Hdp. rewrite Hdp. split; [reflexivity|]. split; [lia|].
    split; [apply execute_params_philox; exact Hdp|].
    split.
    + rewrite generators_after_call, Hdp, Hdraws.
      destruct (decide (get_generator_or_default (gen_ a)
                        = get_generator_or_default (gen_ a))); congruence.
    + intros g' Hne. rewrite generators_after_call, Hdp.
      destruct (decide (g' = get_generator_or_default (gen_ a)));
        congruence.
  - intros Hdp g'. rewrite generators_after_call, Hdp. reflexivity.
  - intros a2 w2 out2 Hrun2 Hg Hdp Hdp2.
    apply run_ok_inv in Hrun2.
    destruct Hrun2 as (d2 & f2 & Hd2 & _ & Hres2 & _ & ->).
    exists f2, (query_params a2 d2),
      (execute_params a2 d2 f2 (after_call a d f w)),
      (call_events a2 d2 f2 (after_call a d f w)).
    do 2 eexists.
    split; [reflexivity|]. split; [apply launches_call_events|].
    split; [apply execute_params_philox; exact Hdp|].
    split; [apply execute_params_philox; exact Hdp2|].
    cbn [philox_seed philox_offset].
    rewrite Hg, generators_after_call, Hdp, Hdraws.
    destruct (decide (get_generator_or_default (gen_ a)
                      = get_generator_or_default (gen_ a))); [|congruence].
    cbn [seed_ philox_offset_per_thread_].
    repeat split; lia.
Qed.

(* ------------------------------------------------------------------ *)
(** ** Numeric ranges *)

Lemma negative_not_ge_zero (x : float) :
  is_negative x = true -> float_ge x float_zero = false.
Proof.
  destruct x as [[]|[]| |[] m e]; intros H; try discriminate H; reflexivity.
Qed.

(** C5, as the checks have it.  A call fails with a precondition violation
    whenever the hidden size (the weight's element count) is not a
    multiple of 8 or exceeds 8192, or the dropout probability is not
    below 1, or epsilon is not at least 0; in particular with a dropout
    probability of exactly 1, with a negative epsilon, and with a hidden
    size of 8193. *)
Theorem out_of_range_fails
    (fp16 bf16 fp32 : Z) (FWD_FUNCS : gmap Z FwdFunction)
    (a : Args) (w w' : World) (res : Result (list (option Tensor))) :
  dropout_add_ln_fwd fp16 bf16 fp32 FWD_FUNCS a w = (res, w') ->
  let fails := exists e, res = Err e /\ is_precondition_violation e = true in
  (~ in_range a -> fails)
  /\ (dropout_p a = float_one -> fails)
  /\ (is_negative (epsilon a) = true -> fails)
  /\ (numel (gamma a) = 8193 -> fails).
Proof.
  intros Hrun fails.
  assert (Hgen : ~ in_range a -> fails).
  { intros Hviol. unfold fails. destruct res as [out|e].
    - exfalso. apply Hviol. apply run_ok_inv in Hrun.
      destruct Hrun as (d & f & Hd & Hlt & _).
      destruct (check_args_range a d Hd) as (Hrem & Hle & Heps).
      destruct (check_args_dims a d Hd)
        as (n0 & n & c & _ & _ & _ & _ & _ & Hh & _).
      rewrite Hh in Hrem, Hle. repeat split; assumption.
    - exists e. split; [reflexivity|]. apply run_err_inv in Hrun.
      destruct Hrun as [[Hc _]|(d & Hd & _ & [[_ ->]|[Hlt Hres]])].
      + apply (check_args_fails_by_precondition a e Hc).
      + reflexivity.
      + exfalso. apply Hviol.
        destruct (check_args_range a d Hd) as (Hrem & Hle & Heps).
        destruct (check_args_dims a d Hd)
          as (n0 & n & c & _ & _ & _ & _ & _ & Hh & _).
        rewrite Hh in Hrem, Hle. repeat split; assumption. }
  split; [exact Hgen|]. split; [|split].
  - intros Hp. apply Hgen. intros (_ & Hlt & _).
    rewrite Hp in Hlt. discriminate Hlt.
  - intros Hneg. apply Hgen. intros (_ & _ & Hge).
    rewrite (negative_not_ge_zero _ Hneg) in Hge. discriminate Hge.
  - intros Hh. apply Hgen. intros ((_ & Hle) & _). lia.
Qed.

(* ------------------------------------------------------------------ *)
(** ** Index buffers, continued *)

(** C6, as the checks have it.  In a call with a row-gather index, the
    row-scatter index must be present as well, and each of the two must be
    on the device, contiguous, a vector of as many entries as the call has
    rows, and of 32-bit integers: a call that falls short of this, one
    that supplies the gather index alone among them, fails with a
    precondition violation and leaves the world as it was.  The rows are
    those of the returned statistics. *)
Theorem gather_index_needs_scatter_index
    (fp16 bf16 fp32 : Z) (FWD_FUNCS : gmap Z FwdFunction)
    (a : Args) (w w' : World) (res : Result (list (option Tensor)))
    (x0_subset : Tensor) :
  x0_subset_ a = Some x0_subset ->
  dropout_add_ln_fwd fp16 bf16 fp32 FWD_FUNCS a w = (res, w') ->
  ((exists z_subset rows,
      z_subset_ a = Some z_subset
      /\ index_ok rows x0_subset /\ index_ok rows z_subset
      /\ forall out, res = Ok out ->
           exists z x dmask mu rsigma,
             out = [z; x; dmask; Some mu; Some rsigma]
             /\ sizes mu = [rows] /\ sizes rsigma = [rows])
   \/ (exists e, res = Err e /\ is_precondition_violation e = true
                 /\ w' = w))
  /\ (z_subset_ a = None ->
      exists e, res = Err e /\ is_precondition_violation e = true
                /\ w' = w).
Proof.
  intros Hsub Hrun.
  assert (Hvalid : forall d, check_args a = Ok d ->
            exists z_subset,
              z_subset_ a = Some z_subset
              /\ index_ok (d_rows d) x0_subset
              /\ index_ok (d_rows d) z_subset).
  { intros d Hd. pose proof (check_args_subset a d Hd) as Hcs.
    destruct (check_subset_gather a (d_rows d) x0_subset Hsub Hcs)
      as (z_subset & Hz & H1 & H2 & H3 & H4 & H5 & H6 & H7 & H8).
    exists z_subset. unfold index_ok. auto 10. }
  assert (Hcases :
    (exists d, check_args a = Ok d
               /\ forall out, res = Ok out -> out = outputs a d)
    \/ (exists e, res = Err e /\ is_precondition_violation e = true
                  /\ w' = w)).
  { destruct res as [out|e].
    - apply run_ok_inv in Hrun.
      destruct Hrun as (d & f & Hd & _ & _ & -> & _).
      left. exists d. split; [exact Hd|]. intros out H; inversion H; auto.
    - apply run_err_inv in Hrun.
      destruct Hrun as [[Hc ->]|(d & Hd & _ & _)].
      + right. exists e. repeat split. apply (check_args_fails_by_precondition a e Hc).
      + left. exists d. split; [exact Hd|]. intros out H; discriminate H. }
  split.
  - destruct Hcases as [(d & Hd & Hout)|Hfail]; [left|right; exact Hfail].
    destruct (Hvalid d Hd) as (z_subset & Hz & Hx & Hzs).
    exists z_subset, (d_rows d).
    split; [exact Hz|]. split; [exact Hx|]. split; [exact Hzs|].
    intros out Ho. rewrite (Hout out Ho). unfold outputs.
    do 5 eexists. split; [reflexivity|]. split; reflexivity.
  - intros Hnone.
    destruct Hcases as [(d & Hd & _)|Hfail]; [|exact Hfail].
    destruct (Hvalid d Hd) as (z_subset & Hz & _). congruence.
Qed.


(* ------------------------------------------------------------------ *)
(** ** The concrete configuration, run *)

(** The launchers of the scenario behave: they only write the three
    sizes, and these are small. *)
Lemma scenario_registry_cases (k : Z) (f : FwdFunction) :
  Scenario.registry !! k = Some f ->
  f = Scenario.launcher_wide \/ f = Scenario.launcher_small.
Proof.
  unfold Scenario.registry. intros H.
  apply lookup_insert_Some in H. destruct H as [[_ <-]|[_ H]]; [auto|].
  apply lookup_insert_Some in H. destruct H as [[_ <-]|[_ H]]; [auto|].
  rewrite lookup_empty in H. discriminate H.
Qed.

Lemma scenario_query_keeps {A} (field : FwdParams -> A) (k : Z)
    (f : FwdFunction) :
  Scenario.registry !! k = Some f -> query_keeps field f.
Proof.
  intros H lp. destruct (scenario_registry_cases k f H) as [->| ->];
    reflexivity.
Qed.

Lemma scenario_reports_sizes (k : Z) (f : FwdFunction) :
  Scenario.registry !! k = Some f -> reports_sizes f.
Proof.
  intros H lp. destruct (scenario_registry_cases k f H) as [->| ->];
    cbn; lia.
Qed.

Lemma run_pair {A} (r : Result A * World) (out : A) :
  fst r = Ok out -> r = (Ok out, snd r).
Proof. destruct r as [res w]; simpl; intros ->; reflexivity. Qed.

Lemma run_pair_err {A} (r : Result A * World) (e : Error) :
  fst r = Err e -> r = (Err e, snd r).
Proof. destruct r as [res w]; simpl; intros ->; reflexivity. Qed.


(** A hidden size of 200 is looked up at 256. *)
Lemma lookup_uses_rounded_hidden_size_witness :
  exists r k f,
    r mod 256 = 0 /\ 200 <= r < 200 + 256
    /\ get_key 0 1 2 kFloat32 kFloat32 kFloat32 kFloat32 kFloat32 r = Ok k
    /\ Scenario.registry !! k = Some f.
Proof.
  assert (Hout : {out | fst (Scenario.run Scenario.narrow Scenario.world0)
                        = Ok out})
    by (vm_compute; eexists; reflexivity).
  destruct Hout as [out Hout].
  pose proof (lookup_uses_rounded_hidden_size 0 1 2 Scenario.registry
                Scenario.narrow Scenario.world0
                (snd (Scenario.run Scenario.narrow Scenario.world0)) (Ok out)
                ltac:(vm_compute; discriminate)
                (run_pair _ _ Hout)) as H.
  cbv beta iota zeta in H.
  destruct H as (r & k & f & events & Hmod & Hr & Hk & Hl & _).
  exists r, k, f. repeat split; first [exact Hmod | apply Hr | exact Hk | exact Hl].
Defined.

(** The call of 2048 columns: two invocations, scratch in between. *)
Lemma query_then_execute_witness :
  exists f lp_query lp_execute before between,
    log (snd (Scenario.run Scenario.wide Scenario.world0))
    = before ++ [Launch f true lp_query] ++ between
      ++ [Launch f false lp_execute]
    /\ launches before = []
    /\ layer_norm.workspace (layer_norm.params lp_query) = None
    /\ (0 < layer_norm.barrier_size (f lp_query true) ->
        layer_norm.barrier (layer_norm.params lp_execute)
        = Some (FreshBuffer buf_barrier)).
Proof.
  assert (Hout : {out | fst (Scenario.run Scenario.wide Scenario.world0)
                        = Ok out})
    by (vm_compute; eexists; reflexivity).
  destruct Hout as [out Hout].
  destruct (query_then_execute 0 1 2 Scenario.registry
              Scenario.wide Scenario.world0
              (snd (Scenario.run Scenario.wide Scenario.world0)) out
              (fun k f H => conj (scenario_query_keeps _ k f H)
                                 (scenario_query_keeps _ k f H))
              (run_pair _ _ Hout))
    as (d & f & lpq & lpe & before & rng & scratch & _ & _ & Hlog & Hb
        & _ & _ & _ & _ & Hw & _ & Hpos & _).
  exists f, lpq, lpe, before, (rng ++ scratch).
  split; [|split; [exact Hb|split; [exact Hw|]]].
  - rewrite Hlog. cbn [log Scenario.world0 app].
    rewrite <- !app_assoc. reflexivity.
  - intros H. apply Hpos. exact H.
Defined.

(** Dropout on the default generator, whose counter stands at 1000,
    twice in a row. *)
Lemma generator_advanced_by_draws_witness :
  exists n st1 st2 f2 lp_execute2,
    0 <= n
    /\ philox_offset_per_thread_
         (generators Scenario.world1 DefaultCUDAGenerator)
       = 1000 + n
    /\ philox_offset st1 = 1000
    /\ In (Launch f2 false lp_execute2)
         (log (snd (Scenario.run Scenario.with_dropout Scenario.world1)))
    /\ layer_norm.philox_args (layer_norm.params lp_execute2) = Some st2
    /\ philox_offset st2 >= philox_offset st1 + n.
Proof.
  set (w1 := Scenario.world1).
  assert (Hout : {out | fst (Scenario.run Scenario.with_dropout
                               Scenario.world0) = Ok out})
    by (vm_compute; eexists; reflexivity).
  destruct Hout as [out Hout].
  assert (Hout2 : {out | fst (Scenario.run Scenario.with_dropout w1)
                         = Ok out})
    by (vm_compute; eexists; reflexivity).
  destruct Hout2 as [out2 Hout2].
  destruct (generator_advanced_by_draws 0 1 2 Scenario.registry
              Scenario.with_dropout Scenario.world0 w1 out
              scenario_reports_sizes (run_pair _ _ Hout))
    as (f & lpq & lpe & events & _ & _ & _ & Hon & _ & Hnext).
  destruct (Hon eq_refl) as (_ & Hn & Hst & Hg & _).
  destruct (Hnext Scenario.with_dropout
              (snd (Scenario.run Scenario.with_dropout w1)) out2
              (run_pair _ _ Hout2) eq_refl eq_refl eq_refl)
    as (f2 & lpq2 & lpe2 & events2 & st1 & st2 & Hlog2 & Hl2 & H1 & H2
        & _ & _ & Hge).
  exists (layer_norm.elts_per_thread (f lpq true)), st1, st2, f2, lpe2.
  split; [exact Hn|].
  change (get_generator_or_default (gen_ Scenario.with_dropout))
    with DefaultCUDAGenerator in Hg, Hst.
  split; [rewrite Hg; reflexivity|].
  split; [rewrite Hst in H1; inversion H1; reflexivity|].
  split; [|split; [exact H2 | exact Hge]].
  rewrite Hlog2. apply in_or_app. right.
  apply launches_In. rewrite Hl2. right. left. reflexivity.
Defined.

(** Four gathered rows of an input of eight. *)
Lemma mask_follows_input_rows_witness :
  exists z x dmask mu rsigma,
    fst (Scenario.run Scenario.gathered Scenario.world0)
    = Ok [Some z; Some x; Some dmask; Some mu; Some rsigma]
    /\ sizes dmask = [8; 256] /\ sizes x = [4; 256]
    /\ sizes mu = [4] /\ sizes rsigma = [4] /\ sizes z = [8; 256].
Proof.
  assert (Hout : {out | fst (Scenario.run Scenario.gathered Scenario.world0)
                        = Ok out})
    by (vm_compute; eexists; reflexivity).
  destruct Hout as [out Hout].
  destruct (mask_follows_input_rows 0 1 2 Scenario.registry
              Scenario.gathered Scenario.world0
              (snd (Scenario.run Scenario.gathered Scenario.world0)) out
              (Scenario.vec 4 3 kInt32) eq_refl eq_refl
              (run_pair _ _ Hout))
    as (n0 & c & n & z & x & dmask & mu & rsigma & Hx0 & Hs & Ho & Hd & Hx
        & Hmu & Hrs & Hz).
  cbn in Hx0, Hs. inversion Hx0; subst n0 c. inversion Hs; subst n.
  exists z, x, dmask, mu, rsigma.
  split; [rewrite Hout, Ho; reflexivity|].
  repeat split; assumption.
Defined.

(** A dropout probability of exactly one. *)
Lemma out_of_range_fails_witness :
  exists e,
    fst (Scenario.run Scenario.full_dropout Scenario.world0) = Err e
    /\ is_precondition_violation e = true.
Proof.
  destruct (out_of_range_fails 0 1 2 Scenario.registry
              Scenario.full_dropout Scenario.world0
              (snd (Scenario.run Scenario.full_dropout Scenario.world0))
              (fst (Scenario.run Scenario.full_dropout Scenario.world0))
              (surjective_pairing _))
    as (_ & Hone & _).
  exact (Hone eq_refl).
Defined.

(** The gather index alone. *)
Lemma gather_index_needs_scatter_index_witness :
  exists e,
    fst (Scenario.run Scenario.gather_only Scenario.world0) = Err e
    /\ is_precondition_violation e = true
    /\ snd (Scenario.run Scenario.gather_only Scenario.world0)
       = Scenario.world0.
Proof.
  destruct (gather_index_needs_scatter_index 0 1 2 Scenario.registry
              Scenario.gather_only Scenario.world0
              (snd (Scenario.run Scenario.gather_only Scenario.world0))
              (fst (Scenario.run Scenario.gather_only Scenario.world0))
              (Scenario.vec 4 3 kInt32) eq_refl (surjective_pairing _))
    as (_ & Hnone).
  exact (Hnone eq_refl).
Defined.

(* ------------------------------------------------------------------ *)
(** ** Where the checks stop short *)

(** A weight without elements passes every check: with a launcher
    registered for the empty bucket the call returns, and without one it
    is refused by the resolver, after the allocations, as an unsupported
    configuration. *)
Lemma zero_hidden_size_passes_the_checks :
  numel (gamma Scenario.zero_width) = 0
  /\ (exists out,
        fst (dropout_add_ln_fwd 0 1 2 Scenario.registry_with_zero
               Scenario.zero_width Scenario.world0) = Ok out)
  /\ fst (Scenario.run Scenario.zero_width Scenario.world0)
     = Err (UnsupportedHiddenSizeOrTypes 0
              kFloat32 kFloat32 kFloat32 kFloat32 kFloat32)
  /\ is_precondition_violation
       (UnsupportedHiddenSizeOrTypes 0
          kFloat32 kFloat32 kFloat32 kFloat32 kFloat32) = false.
Proof.
  split; [reflexivity|]. split; [|split; [vm_compute; reflexivity|reflexivity]].
  vm_compute. eexists. reflexivity.
Qed.

(** A scatter index without a gather index is not looked at: the call
    returns although the buffer is on the host, strided, of the wrong
    length and of 64-bit integers. *)
Lemma scatter_index_alone_is_accepted :
  x0_subset_ Scenario.scatter_only = None
  /\ (exists z_subset,
        z_subset_ Scenario.scatter_only = Some z_subset
        /\ is_cuda z_subset = false /\ is_contiguous z_subset = false
        /\ sizes z_subset = [3] /\ scalar_type z_subset = kInt64)
  /\ exists out,
       fst (Scenario.run Scenario.scatter_only Scenario.world0) = Ok out.
Proof.
  split; [reflexivity|]. split.
  - eexists. repeat split; reflexivity.
  - vm_compute. eexists. reflexivity.
Qed.


(* ================================================================== *)
(** * Further properties of the dispatch *)

(* ------------------------------------------------------------------ *)
(** ** Unsupported precisions *)

Lemma get_type_id_cases (fp16 bf16 fp32 : Z) (d : Dtype) :
  (supported d = true /\ exists t, get_type_id fp16 bf16 fp32 d = Ok t)
  \/ (supported d = false
      /\ get_type_id fp16 bf16 fp32 d = Err (TypeNotSupported d)).
Proof.
  unfold get_type_id. destruct d; cbn; first [left; split; [reflexivity | eexists; reflexivity] | right; split; reflexivity].
Qed.

(** A failure of the key builder names one of its five precisions, an
    unsupported one. *)
Lemma get_key_err_inv (fp16 bf16 fp32 : Z) (w i r o c : Dtype) (h : Z)
    (e : Error) :
  get_key fp16 bf16 fp32 w i r o c h = Err e ->
  exists d, e = TypeNotSupported d /\ In d [w; i; r; o; c]
            /\ supported d = false.
Proof.
  unfold get_key.
  destruct (get_type_id_cases fp16 bf16 fp32 w) as [(_ & tw & ->)|(Hs & ->)];
    cbn [rbind];
    [|intros H; inversion H; exists w; split; [reflexivity|]; split; [cbn [In]; tauto | exact Hs]].
  destruct (get_type_id_cases fp16 bf16 fp32 i) as [(_ & ti & ->)|(Hs & ->)];
    cbn [rbind];
    [|intros H; inversion H; exists i; split; [reflexivity|]; split; [cbn [In]; tauto | exact Hs]].
  destruct (get_type_id_cases fp16 bf16 fp32 r) as [(_ & tr & ->)|(Hs & ->)];
    cbn [rbind];
    [|intros H; inversion H; exists r; split; [reflexivity|]; split; [cbn [In]; tauto | exact Hs]].
  destruct (get_type_id_cases fp16 bf16 fp32 o) as [(_ & to & ->)|(Hs & ->)];
    cbn [rbind];
    [|intros H; inversion H; exists o; split; [reflexivity|]; split; [cbn [In]; tauto | exact Hs]].
  destruct (get_type_id_cases fp16 bf16 fp32 c) as [(_ & tc & ->)|(Hs & ->)];
    cbn [rbind];
    [|intros H; inversion H; exists c; split; [reflexivity|]; split; [cbn [In]; tauto | exact Hs]].
  discriminate.
Qed.

Lemma get_key_ok_supported (fp16 bf16 fp32 : Z) (w i r o c : Dtype) (h k : Z) :
  get_key fp16 bf16 fp32 w i r o c h = Ok k ->
  forallb supported [w; i; r; o; c] = true.
Proof.
  unfold get_key. cbn [forallb].
  destruct (get_type_id_cases fp16 bf16 fp32 w) as [(-> & tw & ->)|(_ & ->)];
    cbn [rbind]; [|discriminate].
  destruct (get_type_id_cases fp16 bf16 fp32 i) as [(-> & ti & ->)|(_ & ->)];
    cbn [rbind]; [|discriminate].
  destruct (get_type_id_cases fp16 bf16 fp32 r) as [(-> & tr & ->)|(_ & ->)];
    cbn [rbind]; [|discriminate].
  destruct (get_type_id_cases fp16 bf16 fp32 o) as [(-> & to & ->)|(_ & ->)];
    cbn [rbind]; [|discriminate].
  destruct (get_type_id_cases fp16 bf16 fp32 c) as [(-> & tc & ->)|(_ & ->)];
    cbn [rbind]; [|discriminate].
  reflexivity.
Qed.

(** X1.  The key builder yields a key exactly when all five precisions are
    among fp16, bf16 and fp32, whatever the hidden size; when it fails, the
    error is the unsupported-type error of the encoder and names one of
    the five precisions that is not supported. *)
Theorem get_key_defined_iff_supported
    (fp16 bf16 fp32 : Z) (w i r o c : Dtype) (h : Z) :
  (forallb supported [w; i; r; o; c] = true
   <-> exists k, get_key fp16 bf16 fp32 w i r o c h = Ok k)
  /\ (forall e, get_key fp16 bf16 fp32 w i r o c h = Err e ->
        exists d, e = TypeNotSupported d /\ In d [w; i; r; o; c]
                  /\ supported d = false).
Proof.
  split; [split|].
  - apply get_key_supported.
  - intros (k & Hk). exact (get_key_ok_supported _ _ _ _ _ _ _ _ _ _ Hk).
  - intros e. apply get_key_err_inv.
Qed.

(** X2.  With a precision outside fp16, bf16 and fp32 among the five, the
    resolver fails with the unsupported-type error for one such precision,
    whatever the registry holds and whatever the hidden size: the registry
    is not consulted and no launcher comes back. *)
Theorem get_fwd_launcher_unsupported_type
    (fp16 bf16 fp32 : Z) (FWD_FUNCS : gmap Z FwdFunction)
    (w i r o c : Dtype) (h : Z) :
  forallb supported [w; i; r; o; c] = false ->
  exists d,
    get_fwd_launcher fp16 bf16 fp32 FWD_FUNCS w i r o c h
    = Err (TypeNotSupported d)
    /\ In d [w; i; r; o; c] /\ supported d = false.
Proof.
  intros Hs. unfold get_fwd_launcher.
  destruct (get_key fp16 bf16 fp32 w i r o c h) as [k|e] eqn:Hk.
  - apply get_key_ok_supported in Hk. congruence.
  - destruct (get_key_err_inv _ _ _ _ _ _ _ _ _ _ Hk) as (d & -> & Hin & Hd).
    exists d. cbn [rbind]. auto.
Qed.

(** A weight of doubles, on the registry of the first scenario. *)
Lemma get_fwd_launcher_unsupported_type_witness :
  get_fwd_launcher 0 1 2 Scenario.registry
    kFloat64 kFloat32 kFloat32 kFloat32 kFloat32 256
  = Err (TypeNotSupported kFloat64).
Proof.
  destruct (get_fwd_launcher_unsupported_type 0 1 2 Scenario.registry
              kFloat64 kFloat32 kFloat32 kFloat32 kFloat32 256 eq_refl)
    as (d & Hd & Hin & Hs).
  rewrite Hd. f_equal. f_equal.
  cbn [In] in Hin.
  destruct Hin as [<-|[<-|[<-|[<-|[<-|[]]]]]];
    first [reflexivity | discriminate Hs].
Defined.

(* ------------------------------------------------------------------ *)
(** ** Hidden sizes beyond 32 bits *)

(** X3.  The key builder does not look at the size of the hidden size: the
    key of any hidden size is the key of hidden size 0 with the hidden size
    or-ed in.  Its low 32 bits are the hidden size modulo 2^32, and the
    bits of the hidden size from bit 32 on are or-ed into the fields of the
    type codes. *)
Theorem get_key_hidden_size_unchecked
    (fp16 bf16 fp32 : Z) (w i r o c : Dtype) (h k0 : Z) :
  get_key fp16 bf16 fp32 w i r o c 0 = Ok k0 ->
  get_key fp16 bf16 fp32 w i r o c h = Ok (Z.lor k0 h)
  /\ hidden_field (Z.lor k0 h) = h mod 2 ^ 32
  /\ Z.shiftr (Z.lor k0 h) 32 = Z.lor (Z.shiftr k0 32) (Z.shiftr h 32).
Proof.
  unfold get_key.
  destruct (get_type_id fp16 bf16 fp32 w) as [tw|]; cbn [rbind];
    [|discriminate].
  destruct (get_type_id fp16 bf16 fp32 i) as [ti|]; cbn [rbind];
    [|discriminate].
  destruct (get_type_id fp16 bf16 fp32 r) as [tr|]; cbn [rbind];
    [|discriminate].
  destruct (get_type_id fp16 bf16 fp32 o) as [to|]; cbn [rbind];
    [|discriminate].
  destruct (get_type_id fp16 bf16 fp32 c) as [tc|]; cbn [rbind];
    [|discriminate].
  cbv zeta. rewrite Z.lor_0_r.
  set (type_key := Z.lor (Z.lor (Z.lor (Z.lor tw _) _) _) _).
  intros H; inversion H; subst k0; clear H.
  split; [reflexivity|]. split.
  - unfold hidden_field. rewrite Z.land_lor_distr_l, !Z.land_ones by lia.
    unfold to_u64. rewrite Z.shiftl_mul_pow2 by lia.
    rewrite Z.mod_mod_divide by (exists (2 ^ 32); reflexivity).
    rewrite Z.mod_mul by lia. apply Z.lor_0_l.
  - apply Z.shiftr_lor.
Qed.

(** Through a hidden size of 2^32 + 256 an fp16 weight (code 0) is taken
    for a bf16 weight (code 1) at 256. *)
Lemma get_key_hidden_size_unchecked_witness :
  get_key 0 1 2 kFloat16 kFloat32 kFloat32 kFloat32 kFloat32 (2 ^ 32 + 256)
  = get_key 0 1 2 kBFloat16 kFloat32 kFloat32 kFloat32 kFloat32 256.
Proof.
  destruct (get_key_hidden_size_unchecked 0 1 2
              kFloat16 kFloat32 kFloat32 kFloat32 kFloat32 (2 ^ 32 + 256)
              _ eq_refl) as (Hk & _).
  rewrite Hk. vm_compute. reflexivity.
Defined.

(* ------------------------------------------------------------------ *)
(** ** The buckets of the hidden size *)

(** The rounded size a hidden size in a given range lands on. *)
Lemma launcher_hidden_size_range (h : Z) :
  0 <= h <= 8192 ->
  let r := launcher_hidden_size h in
  (h <= 1536 /\ multiple h = 256 /\ r <= 1536)
  \/ (1536 < h <= 3072 /\ multiple h = 512 /\ 1536 < r <= 3072)
  \/ (3072 < h /\ multiple h = 1024 /\ 3072 < r <= 8192).
Proof.
  intros Hh r.
  destruct (launcher_hidden_size_spec h Hh) as (Hmod & Hr). fold r in Hmod, Hr.
  destruct (multiple_cases h) as [[H1 Hm]|[[H1 Hm]|[H1 Hm]]];
    rewrite Hm in Hmod, Hr;
    match type of Hmod with
    | r mod ?m = 0 =>
        pose proof (Z.div_mod r m ltac:(lia)) as Hd; rewrite Hmod in Hd
    end.
  - left. repeat split; try assumption. lia.
  - right; left. repeat split; try assumption; lia.
  - right; right. repeat split; try assumption; lia.
Qed.

(** X4.  For a hidden size that gets past the checks (0 to 8192), the size
    the launcher is asked for is a multiple of 256 that is not below the
    hidden size and not above 8192; it is a size the rounding maps to
    itself, and a hidden size that already is a multiple of its bucket
    granularity is asked for as it is. *)
Theorem launcher_hidden_size_stable (h : Z) :
  0 <= h <= 8192 ->
  let r := launcher_hidden_size h in
  h <= r <= 8192
  /\ r mod 256 = 0
  /\ launcher_hidden_size r = r
  /\ (h mod multiple h = 0 -> r = h).
Proof.
  intros Hh r.
  destruct (launcher_hidden_size_spec h Hh) as (Hmod & Hr). fold r in Hmod, Hr.
  pose proof (launcher_hidden_size_range h Hh) as Hcase. fold r in Hcase.
  cbv zeta in Hcase.
  assert (Hr8 : 0 <= r <= 8192) by (destruct Hcase as [?|[?|?]]; lia).
  destruct (launcher_hidden_size_spec r Hr8) as (Hmod' & Hr').
  assert (Hmm : multiple r = multiple h).
  { destruct Hcase as [(? & -> & ?)|[(? & -> & ?)|(? & -> & ?)]];
      destruct (multiple_cases r) as [[? ->]|[[? ->]|[? ->]]]; lia. }
  rewrite Hmm in Hmod', Hr'.
  assert (Hm : 0 < multiple h)
    by (destruct (multiple_cases h) as [[_ ->]|[[_ ->]|[_ ->]]]; lia).
  pose proof (Z.div_mod r (multiple h) ltac:(lia)) as Hd.
  rewrite Hmod in Hd.
  pose proof (Z.div_mod (launcher_hidden_size r) (multiple h) ltac:(lia))
    as Hd'.
  rewrite Hmod' in Hd'.
  split; [lia|]. split; [|split].
  - destruct Hcase as [(? & Hm' & ?)|[(? & Hm' & ?)|(? & Hm' & ?)]];
      rewrite Hm' in Hd;
      pose proof (Z.div_mod r 256 ltac:(lia)) as H256;
      pose proof (Z.mod_pos_bound r 256 ltac:(lia)); lia.
  - nia.
  - intros Hdiv.
    pose proof (Z.div_mod h (multiple h) ltac:(lia)) as Hdh.
    rewrite Hdiv in Hdh. nia.
Qed.

(** A hidden size of 1544 is asked for as 2048, and 2048 as itself. *)
Lemma launcher_hidden_size_stable_witness :
  launcher_hidden_size 1544 <= 8192
  /\ launcher_hidden_size (launcher_hidden_size 1544)
     = launcher_hidden_size 1544
  /\ launcher_hidden_size 2048 = 2048.
Proof.
  destruct (launcher_hidden_size_stable 1544 ltac:(lia))
    as ((_ & Hle) & _ & Hfix & _).
  destruct (launcher_hidden_size_stable 2048 ltac:(lia))
    as (_ & _ & _ & Hsame).
  split; [exact Hle|]. split; [exact Hfix|].
  apply Hsame. reflexivity.
Defined.

(** X5.  Rounding keeps the order of hidden sizes: of two hidden sizes
    that get past the checks, the larger is never asked for at a smaller
    size than the other, across the changes of granularity at 1536 and
    3072 as well. *)
Theorem launcher_hidden_size_monotone (h h' : Z) :
  0 <= h -> h <= h' -> h' <= 8192 ->
  launcher_hidden_size h <= launcher_hidden_size h'.
Proof.
  intros H0 Hle H8.
  destruct (launcher_hidden_size_spec h ltac:(lia)) as (Hmod & Hr).
  destruct (launcher_hidden_size_spec h' ltac:(lia)) as (Hmod' & Hr').
  pose proof (launcher_hidden_size_range h ltac:(lia)) as Hc.
  pose proof (launcher_hidden_size_range h' ltac:(lia)) as Hc'.
  cbv zeta in Hc, Hc'.
  destruct Hc as [(? & Hm & ?)|[(? & Hm & ?)|(? & Hm & ?)]];
    destruct Hc' as [(? & Hm' & ?)|[(? & Hm' & ?)|(? & Hm' & ?)]];
    try lia;
    rewrite Hm in Hmod, Hr; rewrite Hm' in Hmod', Hr';
    match type of Hmod with
    | ?r mod ?m = 0 =>
        pose proof (Z.div_mod r m ltac:(lia)) as Hd; rewrite Hmod in Hd
    end;
    match type of Hmod' with
    | ?r mod ?m = 0 =>
        pose proof (Z.div_mod r m ltac:(lia)) as Hd'; rewrite Hmod' in Hd'
    end; lia.
Qed.

(** 1536 stays in the 256 buckets, 1544 moves on to 2048. *)
Lemma launcher_hidden_size_monotone_witness :
  launcher_hidden_size 1536 <= launcher_hidden_size 1544.
Proof.
  apply (launcher_hidden_size_monotone 1536 1544); lia.
Defined.

(* ------------------------------------------------------------------ *)
(** ** The returned tensors *)

Lemma freshly_allocated_Some (b : Buffer) (shape : list Z) (dtype : Dtype) :
  freshly_allocated (Some (fresh b shape dtype)).
Proof.
  intros t Ht. inversion Ht; subst. cbn.
  split; [reflexivity|]. split; [reflexivity|]. exists b. reflexivity.
Qed.

Lemma freshly_allocated_None : freshly_allocated None.
Proof. intros t Ht. discriminate Ht. Qed.

(** X6.  The five tensors of a returning call are its own: each defined
    one is on the device, contiguous and in a buffer the call allocated,
    never a buffer of the caller.  The output has the precision of the
    input; the saved intermediate, if any, has the precision of the
    residual if one was supplied, else fp32 if [residual_in_fp32] was set,
    else the precision of the input; the mask, if any, is of bytes; row
    means and row inverse deviations are fp32. *)
Theorem returned_tensors_precisions
    (fp16 bf16 fp32 : Z) (FWD_FUNCS : gmap Z FwdFunction)
    (a : Args) (w w' : World) (out : list (option Tensor)) :
  dropout_add_ln_fwd fp16 bf16 fp32 FWD_FUNCS a w = (Ok out, w') ->
  exists z x dmask mu rsigma,
    out = [Some z; x; dmask; Some mu; Some rsigma]
    /\ Forall freshly_allocated out
    /\ scalar_type z = scalar_type (x0 a)
    /\ (forall t, x = Some t -> scalar_type t = residual_precision a)
    /\ (forall t, dmask = Some t -> scalar_type t = kUInt8)
    /\ scalar_type mu = kFloat32
    /\ scalar_type rsigma = kFloat32.
Proof.
  intros Hrun. apply run_ok_inv in Hrun.
  destruct Hrun as (d & f & _ & _ & _ & -> & _).
  unfold outputs. do 5 eexists. split; [reflexivity|].
  split; [|split; [reflexivity|split; [|split; [|split; reflexivity]]]].
  - unfold out_x, out_dmask, out_z, out_mu, out_rsigma.
    constructor; [apply freshly_allocated_Some|].
    constructor;
      [destruct (save_x a);
       [apply freshly_allocated_Some | apply freshly_allocated_None]|].
    constructor;
      [destruct (float_gt (dropout_p a) float_zero);
       [apply freshly_allocated_Some | apply freshly_allocated_None]|].
    constructor; [apply freshly_allocated_Some|].
    constructor; [apply freshly_allocated_Some|].
    constructor.
  - unfold out_x, fresh. intros t Ht.
    destruct (save_x a); inversion Ht; reflexivity.
  - unfold out_dmask, fresh. intros t Ht.
    destruct (float_gt (dropout_p a) float_zero); inversion Ht; reflexivity.
Qed.

(** The half-precision call with the residual asked for in fp32. *)
Lemma returned_tensors_precisions_witness :
  exists z x mu rsigma,
    fst (Mixed.run Mixed.half_input Scenario.world0)
    = Ok [Some z; Some x; None; Some mu; Some rsigma]
    /\ scalar_type z = kFloat16 /\ scalar_type x = kFloat32
    /\ scalar_type mu = kFloat32.
Proof.
  assert (Hout : {out | fst (Mixed.run Mixed.half_input Scenario.world0)
                        = Ok out})
    by (vm_compute; eexists; reflexivity).
  destruct Hout as [out Hout].
  destruct (returned_tensors_precisions 0 1 2 Mixed.registry
              Mixed.half_input Scenario.world0
              (snd (Mixed.run Mixed.half_input Scenario.world0)) out
              (run_pair _ _ Hout))
    as (z & x & dmask & mu & rsigma & Ho & _ & Hz & Hx & _ & Hmu & _).
  assert (Hshape : exists t, x = Some t /\ dmask = None).
  { rewrite Ho in Hout. vm_compute in Hout. inversion Hout.
    eexists. split; reflexivity. }
  destruct Hshape as (t & -> & ->).
  exists z, t, mu, rsigma.
  split; [rewrite Hout, Ho; reflexivity|].
  split; [exact Hz|]. split; [exact (Hx t eq_refl) | exact Hmu].
Defined.

(** X7.  A returning call hands back a dropout mask exactly when the
    dropout probability is above 0: then, and only then, the mask is
    allocated; it has the shape of the input as it was passed, and the
    configuring invocation is handed its buffer, a null reference
    otherwise. *)
Theorem mask_iff_dropout
    (fp16 bf16 fp32 : Z) (FWD_FUNCS : gmap Z FwdFunction)
    (a : Args) (w w' : World) (out : list (option Tensor)) :
  dropout_add_ln_fwd fp16 bf16 fp32 FWD_FUNCS a w = (Ok out, w') ->
  exists z x dmask mu rsigma events f lp_query rest,
    out = [z; x; dmask; mu; rsigma]
    /\ log w' = log w ++ events
    /\ launches events = (f, true, lp_query) :: rest
    /\ (float_gt (dropout_p a) float_zero = true <-> dmask <> None)
    /\ (float_gt (dropout_p a) float_zero = true
        <-> In buf_dmask (allocations events))
    /\ (forall t, dmask = Some t -> sizes t = sizes (x0 a))
    /\ layer_norm.dmask (layer_norm.params lp_query)
       = if float_gt (dropout_p a) float_zero
         then Some (FreshBuffer buf_dmask) else None.
Proof.
  intros Hrun. apply run_ok_inv in Hrun.
  destruct Hrun as (d & f & _ & _ & _ & -> & ->).
  unfold outputs. do 5 eexists.
  exists (call_events a d f w), f, (query_params a d).
  eexists.
  split; [reflexivity|]. split; [reflexivity|].
  split; [apply launches_call_events|].
  split;
    [unfold out_dmask; destruct (float_gt (dropout_p a) float_zero);
     split; congruence|].
  split.
  { rewrite allocations_call_events.
    destruct (float_gt (dropout_p a) float_zero), (save_x a),
      (0 <? layer_norm.barrier_size (f (query_params a d) true));
      cbn [app In]; split; intros H;
      first [ discriminate H | reflexivity | intuition congruence ]. }
  split.
  { unfold out_dmask, fresh. intros t Ht.
    destruct (float_gt (dropout_p a) float_zero); inversion Ht.
    reflexivity. }
  unfold query_params, build_params, out_dmask, fresh.
  cbn [layer_norm.params layer_norm.dmask].
  destruct (float_gt (dropout_p a) float_zero); reflexivity.
Qed.

(** The call with dropout returns a mask of four rows of 256. *)
Lemma mask_iff_dropout_witness :
  exists z x t mu rsigma,
    fst (Scenario.run Scenario.with_dropout Scenario.world0)
    = Ok [z; x; Some t; mu; rsigma]
    /\ sizes t = [4; 256].
Proof.
  assert (Hout : {out | fst (Scenario.run Scenario.with_dropout
                               Scenario.world0) = Ok out})
    by (vm_compute; eexists; reflexivity).
  destruct Hout as [out Hout].
  destruct (mask_iff_dropout 0 1 2 Scenario.registry
              Scenario.with_dropout Scenario.world0
              (snd (Scenario.run Scenario.with_dropout Scenario.world0)) out
              (run_pair _ _ Hout))
    as (z & x & dmask & mu & rsigma & events & f & lpq & rest & Ho & _ & _
        & Hiff & _ & Hsz & _).
  destruct dmask as [t|]; [|exfalso; apply (proj1 Hiff eq_refl); reflexivity].
  exists z, x, t, mu, rsigma.
  split; [rewrite Hout, Ho; reflexivity|].
  exact (Hsz t eq_refl).
Defined.

(** X8.  Without index buffers, a returning call hands back an output,
    and a saved intermediate if any, of the shape of the input, which has
    as many columns as the weight has elements.  The statistics have the
    input's row count narrowed to [int]: as many entries as the input has
    rows whenever that count fits 32 bits. *)
Theorem plain_call_shapes
    (fp16 bf16 fp32 : Z) (FWD_FUNCS : gmap Z FwdFunction)
    (a : Args) (w w' : World) (out : list (option Tensor)) :
  x0_subset_ a = None -> z_subset_ a = None ->
  dropout_add_ln_fwd fp16 bf16 fp32 FWD_FUNCS a w = (Ok out, w') ->
  exists n0 c z x dmask mu rsigma,
    sizes (x0 a) = [n0; c]
    /\ to_int c = numel (gamma a)
    /\ out = [Some z; x; dmask; Some mu; Some rsigma]
    /\ sizes z = [n0; c]
    /\ (forall t, x = Some t -> sizes t = [n0; c])
    /\ sizes mu = [to_int n0] /\ sizes rsigma = [to_int n0]
    /\ (- 2 ^ 31 <= n0 < 2 ^ 31 -> sizes mu = [n0] /\ sizes rsigma = [n0]).
Proof.
  intros Hg Hs Hrun. apply run_ok_inv in Hrun.
  destruct Hrun as (d & f & Hd & _ & _ & -> & _).
  destruct (check_args_dims a d Hd)
    as (n0 & n & c & Hx0 & Hn & Hsz & Hrows & Hcols & Hhid & Hhc).
  rewrite Hg in Hn. subst n.
  exists n0, c. unfold outputs. do 5 eexists.
  split; [exact Hx0|]. split; [congruence|]. split; [reflexivity|].
  unfold out_z, out_x, out_mu, out_rsigma, z_shape, fresh.
  rewrite Hs. cbn [has_value sizes]. rewrite Hsz, Hrows.
  split; [reflexivity|]. split.
  - intros t Ht. destruct (save_x a); inversion Ht. reflexivity.
  - split; [reflexivity|]. split; [reflexivity|].
    intros Hfit. rewrite (to_int_small n0 Hfit). split; reflexivity.
Qed.

(** The plain call of four rows of 256. *)
Lemma plain_call_shapes_witness :
  exists z mu rsigma,
    fst (Scenario.run Scenario.plain Scenario.world0)
    = Ok [Some z; None; None; Some mu; Some rsigma]
    /\ sizes z = [4; 256] /\ sizes mu = [4] /\ sizes rsigma = [4].
Proof.
  assert (Hout : {out | fst (Scenario.run Scenario.plain Scenario.world0)
                        = Ok out})
    by (vm_compute; eexists; reflexivity).
  destruct Hout as [out Hout].
  destruct (plain_call_shapes 0 1 2 Scenario.registry
              Scenario.plain Scenario.world0
              (snd (Scenario.run Scenario.plain Scenario.world0)) out
              eq_refl eq_refl (run_pair _ _ Hout))
    as (n0 & c & z & x & dmask & mu & rsigma & Hx0 & _ & Ho & Hz & _ & _ & _
        & Hfit).
  cbn in Hx0. inversion Hx0; subst n0 c.
  destruct (Hfit ltac:(lia)) as (Hmu & Hrs).
  assert (Hnone : x = None /\ dmask = None).
  { rewrite Ho in Hout. vm_compute in Hout. inversion Hout. auto. }
  destruct Hnone as (-> & ->).
  exists z, mu, rsigma.
  split; [rewrite Hout, Ho; reflexivity|]. auto.
Defined.

(* ------------------------------------------------------------------ *)
(** ** What the checks ask of the operands *)

(** A call either got past the checks ahead of the allocations or failed
    there, with the world as it was. *)
Lemma run_checked_or_failed
    (fp16 bf16 fp32 : Z) (FWD_FUNCS : gmap Z FwdFunction)
    (a : Args) (w w' : World) (res : Result (list (option Tensor))) :
  dropout_add_ln_fwd fp16 bf16 fp32 FWD_FUNCS a w = (res, w') ->
  (exists d, check_args a = Ok d) \/ failed_early res w w'.
Proof.
  rewrite run_unfold.
  destruct (check_args a) as [d|e] eqn:Hc; [left; exists d; reflexivity|].
  intros H; inversion H; subst. right. exists e.
  split; [reflexivity|]. split; [|reflexivity].
  exact (check_args_fails_by_precondition a e Hc).
Qed.

Lemma check_beta_ok (a : Args) (beta : Tensor) :
  check_beta a = Ok tt -> beta_ a = Some beta -> beta_ok a beta.
Proof.
  unfold check_beta, beta_ok, wtype_of. intros H Hsome. rewrite Hsome in H.
  step_ok H as H1. step_ok H as H2. step_ok H as H3.
  apply TORCH_CHECK_ok_inv in H.
  apply bool_decide_eq_true in H1, H. auto.
Qed.

Lemma check_colscale_ok (a : Args) (cols : Z) (colscale : Tensor) :
  check_colscale a cols = Ok tt -> colscale_ a = Some colscale ->
  is_cuda colscale = true /\ is_contiguous colscale = true
  /\ sizes colscale = [cols]
  /\ scalar_type colscale = scalar_type (gamma a).
Proof.
  unfold check_colscale, wtype_of. intros H Hsome. rewrite Hsome in H.
  step_ok H as H1. step_ok H as H2. step_ok H as H3.
  apply TORCH_CHECK_ok_inv in H.
  apply bool_decide_eq_true in H3, H. auto.
Qed.

Lemma check_residual_ok (a : Args) (shape : list Z) (residual : Tensor) :
  check_residual a shape = Ok tt -> residual_ a = Some residual ->
  residual_ok shape residual.
Proof.
  unfold check_residual, residual_ok. intros H Hsome. rewrite Hsome in H.
  step_ok H as H1. step_ok H as H2.
  apply TORCH_CHECK_ok_inv in H.
  apply bool_decide_eq_true in H. auto.
Qed.

Lemma check_rowscale_ok (a : Args) (rows : Z) (rowscale : Tensor) :
  check_rowscale a rows = Ok tt -> rowscale_ a = Some rowscale ->
  rowscale_ok a rows rowscale.
Proof.
  unfold check_rowscale, rowscale_ok, itype_of. intros H Hsome. rewrite Hsome in H.
  step_ok H as H1. step_ok H as H2. step_ok H as H3.
  apply TORCH_CHECK_ok_inv in H.
  apply bool_decide_eq_true in H3, H. auto.
Qed.

(** The shape the checks settle on, read off the arguments. *)
Lemma check_args_sizes_vec (a : Args) (d : Dims) :
  check_args a = Ok d ->
  exists n0 n c,
    sizes (x0 a) = [n0; c]
    /\ match x0_subset_ a with
       | None => n = n0
       | Some x0_subset => nth_error (sizes x0_subset) 0 = Some n
       end
    /\ sizes_vec a = Ok [n; c]
    /\ numel (gamma a) = to_int c.
Proof.
  intros Hd.
  destruct (check_args_dims a d Hd)
    as (n0 & n & c & Hx0 & Hn & Hsz & Hrows & Hcols & Hhid & Hhc).
  destruct (check_args_ok_inv a d Hd) as (sz & Hsv & -> & _).
  cbn [d_sizes] in Hsz. subst sz.
  exists n0, n, c. repeat split; try assumption; congruence.
Qed.

(** X9.  A call gets past the checks only if a bias, when supplied, has
    the precision and the shape of the weight and is on the device and
    contiguous, and a column scale, when supplied, is on the device,
    contiguous, a vector of as many entries as the weight has elements,
    and of the weight's precision; any other call fails with a
    precondition violation before anything is allocated. *)
Theorem weight_side_operands_checked
    (fp16 bf16 fp32 : Z) (FWD_FUNCS : gmap Z FwdFunction)
    (a : Args) (w w' : World) (res : Result (list (option Tensor))) :
  dropout_add_ln_fwd fp16 bf16 fp32 FWD_FUNCS a w = (res, w') ->
  ((forall beta, beta_ a = Some beta -> beta_ok a beta)
   /\ (forall colscale, colscale_ a = Some colscale ->
         colscale_ok a colscale))
  \/ failed_early res w w'.
Proof.
  intros Hrun.
  destruct (run_checked_or_failed _ _ _ _ _ _ _ _ Hrun) as [(d & Hd)|Hf];
    [left|right; exact Hf].
  destruct (check_args_ok_inv a d Hd)
    as (sz & _ & _ & _ & _ & _ & _ & Hhid & Hb & _ & _ & Hc & _).
  split.
  - intros beta Hbeta. exact (check_beta_ok a beta Hb Hbeta).
  - intros colscale Hcol. unfold colscale_ok. rewrite Hhid.
    exact (check_colscale_ok a _ colscale Hc Hcol).
Qed.

(** A bias of fp16 beside a weight of fp32. *)
Lemma weight_side_operands_checked_witness :
  failed_early (fst (Scenario.run Mixed.bad_beta Scenario.world0))
    Scenario.world0 (snd (Scenario.run Mixed.bad_beta Scenario.world0)).
Proof.
  destruct (weight_side_operands_checked 0 1 2 Scenario.registry
              Mixed.bad_beta Scenario.world0
              (snd (Scenario.run Mixed.bad_beta Scenario.world0))
              (fst (Scenario.run Mixed.bad_beta Scenario.world0))
              (surjective_pairing _)) as [(Hb & _)|Hf]; [|exact Hf].
  destruct (Hb _ eq_refl) as (Hty & _). discriminate Hty.
Defined.

(** X10.  A call gets past the checks only if a residual, when supplied,
    is on the device, contiguous and of the shape of the rows at work (the
    rows of the input, or as many as the gather index has entries, by the
    columns of the input), and a row scale, when supplied, is on the
    device, contiguous, a vector of as many entries as there are rows at
    work (narrowed to [int]) and of the input's precision; any other call
    fails with a precondition violation before anything is allocated. *)
Theorem row_side_operands_checked
    (fp16 bf16 fp32 : Z) (FWD_FUNCS : gmap Z FwdFunction)
    (a : Args) (w w' : World) (res : Result (list (option Tensor))) :
  dropout_add_ln_fwd fp16 bf16 fp32 FWD_FUNCS a w = (res, w') ->
  (exists n0 n c,
     sizes (x0 a) = [n0; c]
     /\ match x0_subset_ a with
        | None => n = n0
        | Some x0_subset => nth_error (sizes x0_subset) 0 = Some n
        end
     /\ (forall residual, residual_ a = Some residual ->
           residual_ok [n; c] residual)
     /\ (forall rowscale, rowscale_ a = Some rowscale ->
           rowscale_ok a (to_int n) rowscale))
  \/ failed_early res w w'.
Proof.
  intros Hrun.
  destruct (run_checked_or_failed _ _ _ _ _ _ _ _ Hrun) as [(d & Hd)|Hf];
    [left|right; exact Hf].
  destruct (check_args_sizes_vec a d Hd) as (n0 & n & c & Hx0 & Hn & Hsv & _).
  destruct (check_args_ok_inv a d Hd)
    as (sz & Hsv' & _ & _ & _ & _ & _ & _ & _ & Hr & Hrs & _).
  rewrite Hsv in Hsv'. inversion Hsv'; subst sz. cbn [nth] in Hrs.
  exists n0, n, c. split; [exact Hx0|]. split; [exact Hn|]. split.
  - intros residual Hres. exact (check_residual_ok a _ residual Hr Hres).
  - intros rowscale Hrow. exact (check_rowscale_ok a _ rowscale Hrs Hrow).
Qed.

(** A row scale of three entries for an input of four rows. *)
Lemma row_side_operands_checked_witness :
  failed_early (fst (Scenario.run Mixed.bad_rowscale Scenario.world0))
    Scenario.world0 (snd (Scenario.run Mixed.bad_rowscale Scenario.world0)).
Proof.
  destruct (row_side_operands_checked 0 1 2 Scenario.registry
              Mixed.bad_rowscale Scenario.world0
              (snd (Scenario.run Mixed.bad_rowscale Scenario.world0))
              (fst (Scenario.run Mixed.bad_rowscale Scenario.world0))
              (surjective_pairing _))
    as [(n0 & n & c & Hx0 & Hn & _ & Hrs)|Hf]; [|exact Hf].
  cbn in Hx0, Hn. inversion Hx0; subst n0 c. subst n.
  destruct (Hrs _ eq_refl) as (_ & _ & Hsz & _). discriminate Hsz.
Defined.

(** X11.  A call gets past the checks only if the input is on the device,
    contiguous and two-dimensional, the weight is on the device, and the
    weight has as many elements as the input has columns (narrowed to
    [int]); any other call fails with a precondition violation before
    anything is allocated. *)
Theorem input_and_weight_checked
    (fp16 bf16 fp32 : Z) (FWD_FUNCS : gmap Z FwdFunction)
    (a : Args) (w w' : World) (res : Result (list (option Tensor))) :
  dropout_add_ln_fwd fp16 bf16 fp32 FWD_FUNCS a w = (res, w') ->
  (is_cuda (x0 a) = true /\ is_contiguous (x0 a) = true
   /\ is_cuda (gamma a) = true
   /\ exists n0 c, sizes (x0 a) = [n0; c] /\ numel (gamma a) = to_int c)
  \/ failed_early res w w'.
Proof.
  intros Hrun.
  destruct (run_checked_or_failed _ _ _ _ _ _ _ _ Hrun) as [(d & Hd)|Hf];
    [left|right; exact Hf].
  destruct (check_args_sizes_vec a d Hd) as (n0 & n & c & Hx0 & _ & _ & Hh).
  destruct (check_args_ok_inv a d Hd) as (sz & _ & _ & H1 & H2 & H3 & _).
  repeat split; try assumption. exists n0, c. auto.
Qed.

(** An input of three dimensions. *)
Lemma input_and_weight_checked_witness :
  failed_early (fst (Scenario.run Mixed.cube Scenario.world0))
    Scenario.world0 (snd (Scenario.run Mixed.cube Scenario.world0)).
Proof.
  destruct (input_and_weight_checked 0 1 2 Scenario.registry
              Mixed.cube Scenario.world0
              (snd (Scenario.run Mixed.cube Scenario.world0))
              (fst (Scenario.run Mixed.cube Scenario.world0))
              (surjective_pairing _))
    as [(_ & _ & _ & n0 & c & Hx0 & _)|Hf]; [|exact Hf].
  discriminate Hx0.
Defined.

(* ------------------------------------------------------------------ *)
(** ** Calls that fail *)

Lemma allocations_output_allocs (a : Args) (d : Dims) :
  allocations (output_allocs a d)
  = (if save_x a then [buf_x] else [])
    ++ (if float_gt (dropout_p a) float_zero then [buf_dmask] else [])
    ++ [buf_z; buf_mu; buf_rsigma].
Proof.
  unfold output_allocs.
  destruct (save_x a), (float_gt (dropout_p a) float_zero); reflexivity.
Qed.

Lemma requests_output_allocs (a : Args) (d : Dims) :
  requests (output_allocs a d) = [].
Proof.
  unfold output_allocs.
  destruct (save_x a), (float_gt (dropout_p a) float_zero); reflexivity.
Qed.

(** X12.  No failing call invokes a launcher, asks a generator for
    anything or allocates scratch: whatever the failure, the generators
    are as they were and the call has logged allocations of outputs at
    most.  A call that fails as an unsupported configuration (an
    unsupported precision, or no launcher registered) had passed every
    check, the bound on the dropout probability included, and had
    allocated its outputs. *)
Theorem failing_call_effects
    (fp16 bf16 fp32 : Z) (FWD_FUNCS : gmap Z FwdFunction)
    (a : Args) (w w' : World) (e : Error) :
  dropout_add_ln_fwd fp16 bf16 fp32 FWD_FUNCS a w = (Err e, w') ->
  exists events,
    log w' = log w ++ events
    /\ generators w' = generators w
    /\ launches events = []
    /\ requests events = []
    /\ ~ In buf_barrier (allocations events)
    /\ ~ In buf_workspace (allocations events)
    /\ (is_unsupported_configuration e = true ->
        float_lt (dropout_p a) float_one = true
        /\ (exists d, check_args a = Ok d)
        /\ allocations events
           = (if save_x a then [buf_x] else [])
             ++ (if float_gt (dropout_p a) float_zero
                 then [buf_dmask] else [])
             ++ [buf_z; buf_mu; buf_rsigma]).
Proof.
  intros Hrun. apply run_err_inv in Hrun.
  assert (Hno : forall d,
            ~ In buf_barrier (allocations (output_allocs a d))
            /\ ~ In buf_workspace (allocations (output_allocs a d))).
  { intros d. rewrite allocations_output_allocs.
    destruct (save_x a), (float_gt (dropout_p a) float_zero);
      cbn [app In]; intuition discriminate. }
  destruct Hrun as [[Hc ->]|(d & Hd & -> & Hcase)].
  - exists []. rewrite app_nil_r.
    split; [reflexivity|]. split; [reflexivity|]. split; [reflexivity|].
    split; [reflexivity|]. split; [intros []|]. split; [intros []|].
    intros Hu. apply check_args_fails_by_precondition in Hc.
    destruct e; cbn in Hu, Hc; discriminate.
  - exists (output_allocs a d).
    destruct (Hno d) as (Hb & Hw).
    split; [reflexivity|]. split; [reflexivity|].
    split; [apply launches_output_allocs|].
    split; [apply requests_output_allocs|].
    split; [exact Hb|]. split; [exact Hw|].
    intros Hu. destruct Hcase as [[_ ->]|[Hlt _]]; [discriminate Hu|].
    split; [exact Hlt|]. split; [exists d; exact Hd|].
    apply allocations_output_allocs.
Qed.

(** An input of doubles: refused by the encoder after three allocations. *)
Lemma failing_call_effects_witness :
  fst (Mixed.run Mixed.double_input Scenario.world0)
  = Err (TypeNotSupported kFloat64)
  /\ exists events,
       log (snd (Mixed.run Mixed.double_input Scenario.world0)) = events
       /\ launches events = []
       /\ allocations events = [buf_z; buf_mu; buf_rsigma].
Proof.
  assert (Herr : fst (Mixed.run Mixed.double_input Scenario.world0)
                 = Err (TypeNotSupported kFloat64))
    by (vm_compute; reflexivity).
  split; [exact Herr|].
  destruct (failing_call_effects 0 1 2 Mixed.registry
              Mixed.double_input Scenario.world0
              (snd (Mixed.run Mixed.double_input Scenario.world0))
              (TypeNotSupported kFloat64) (run_pair_err _ _ Herr))
    as (events & Hlog & _ & Hl & _ & _ & _ & Hu).
  exists events. split; [exact Hlog|]. split; [exact Hl|].
  destruct (Hu eq_refl) as (_ & _ & Hal). exact Hal.
Defined.

(** X13.  A call whose input, weight or residual precision (the
    residual's own, or the one lines 88-90 derive) is not fp16, bf16 or
    fp32 never returns: it fails, and unless a precondition fails first it
    fails with the unsupported-type error for an unsupported precision.
    The checks themselves never look at the precision of the input or of
    the weight. *)
Theorem unsupported_precision_never_returns
    (fp16 bf16 fp32 : Z) (FWD_FUNCS : gmap Z FwdFunction)
    (a : Args) (w w' : World) (res : Result (list (option Tensor))) :
  supported (scalar_type (x0 a)) = false
  \/ supported (scalar_type (gamma a)) = false
  \/ supported (residual_precision a) = false ->
  dropout_add_ln_fwd fp16 bf16 fp32 FWD_FUNCS a w = (res, w') ->
  exists e,
    res = Err e
    /\ (is_precondition_violation e = true
        \/ exists d, e = TypeNotSupported d /\ supported d = false).
Proof.
  intros Hbad Hrun.
  assert (Hnot : forallb supported
                   [wtype_of a; itype_of a; rtype_of a; otype_of a; ctype]
                 = false).
  { unfold wtype_of, otype_of, itype_of.
    change (rtype_of a) with (residual_precision a). cbn [forallb].
    destruct Hbad as [H|[H|H]]; rewrite H;
      repeat first [reflexivity | rewrite andb_false_r | rewrite andb_false_l]. }
  destruct res as [out|e].
  - exfalso. apply run_ok_inv in Hrun.
    destruct Hrun as (d & f & _ & _ & Hres & _).
    unfold resolve_for in Hres. apply get_fwd_launcher_ok_inv in Hres.
    destruct Hres as (k & Hk & _).
    apply get_key_ok_supported in Hk. congruence.
  - exists e. split; [reflexivity|]. apply run_err_inv in Hrun.
    destruct Hrun as [[Hc _]|(d & Hd & _ & [[_ ->]|[_ Hres]])].
    + left. exact (check_args_fails_by_precondition a e Hc).
    + left. reflexivity.
    + right. unfold resolve_for, get_fwd_launcher in Hres.
      destruct (get_key fp16 bf16 fp32 (wtype_of a) (itype_of a)
                  (rtype_of a) (otype_of a) ctype
                  (launcher_hidden_size (d_hidden_size d)))
        as [k|e'] eqn:Hk.
      * apply get_key_ok_supported in Hk. congruence.
      * cbn [rbind] in Hres. inversion Hres; subst e'.
        destruct (get_key_err_inv _ _ _ _ _ _ _ _ _ _ Hk)
          as (d0 & -> & _ & Hd0).
        exists d0. auto.
Qed.

(** An input of doubles again. *)
Lemma unsupported_precision_never_returns_witness :
  exists e,
    fst (Mixed.run Mixed.double_input Scenario.world0) = Err e
    /\ (is_precondition_violation e = true
        \/ exists d, e = TypeNotSupported d /\ supported d = false).
Proof.
  exact (unsupported_precision_never_returns 0 1 2 Mixed.registry
           Mixed.double_input Scenario.world0
           (snd (Mixed.run Mixed.double_input Scenario.world0))
           (fst (Mixed.run Mixed.double_input Scenario.world0))
           (or_introl eq_refl) (surjective_pairing _)).
Defined.

(* ------------------------------------------------------------------ *)
(** ** The payload *)

(** X14.  The payload handed to the configuring invocation of a returning
    call: each optional operand (residual, bias, row scale, column scale,
    the two index buffers) is referred to by its own data pointer, or by a
    null reference when it was not supplied; input and weight by theirs;
    output and statistics by the buffers just allocated.  The column count
    is the weight's element count, the row count that of the returned
    statistics; epsilon, the row-scale constant and the RMS flag are the
    caller's; the keep probability is one minus the dropout probability
    and the dropout scale its reciprocal; generator state and scratch
    references are still unset. *)
Theorem query_payload
    (fp16 bf16 fp32 : Z) (FWD_FUNCS : gmap Z FwdFunction)
    (a : Args) (w w' : World) (out : list (option Tensor)) :
  dropout_add_ln_fwd fp16 bf16 fp32 FWD_FUNCS a w = (Ok out, w') ->
  exists events f lp_query rest z x dmask mu rsigma,
    log w' = log w ++ events
    /\ launches events = (f, true, lp_query) :: rest
    /\ out = [z; x; dmask; Some mu; Some rsigma]
    /\ let p := layer_norm.params lp_query in
       layer_norm.residual p = data_ptr_or_null (residual_ a)
       /\ layer_norm.beta p = data_ptr_or_null (beta_ a)
       /\ layer_norm.rowscale p = data_ptr_or_null (rowscale_ a)
       /\ layer_norm.colscale p = data_ptr_or_null (colscale_ a)
       /\ layer_norm.x0_subset p = data_ptr_or_null (x0_subset_ a)
       /\ layer_norm.z_subset p = data_ptr_or_null (z_subset_ a)
       /\ layer_norm.x0 p = Some (data_ptr (x0 a))
       /\ layer_norm.gamma p = Some (data_ptr (gamma a))
       /\ layer_norm.z p = Some (FreshBuffer buf_z)
       /\ layer_norm.mu p = Some (FreshBuffer buf_mu)
       /\ layer_norm.rs p = Some (FreshBuffer buf_rsigma)
       /\ layer_norm.cols p = numel (gamma a)
       /\ sizes mu = [layer_norm.rows p]
       /\ layer_norm.epsilon p = epsilon a
       /\ layer_norm.rowscale_const p = rowscale_const a
       /\ layer_norm.is_rms_norm p = is_rms_norm a
       /\ layer_norm.dropout_keep_p p = float_sub float_one (dropout_p a)
       /\ layer_norm.dropout_scale p
          = float_div float_one (layer_norm.dropout_keep_p p)
       /\ layer_norm.philox_args p = None
       /\ layer_norm.workspace p = None
       /\ layer_norm.barrier p = None.
Proof.
  intros Hrun. apply run_ok_inv in Hrun.
  destruct Hrun as (d & f & Hd & _ & _ & -> & ->).
  destruct (check_args_dims a d Hd)
    as (n0 & n & c & _ & _ & _ & _ & _ & Hhid & Hhc).
  exists (call_events a d f w), f, (query_params a d).
  unfold outputs. do 6 eexists.
  split; [reflexivity|].
  split; [apply launches_call_events|].
  split; [reflexivity|].
  cbv zeta. unfold query_params, build_params.
  cbn [layer_norm.params layer_norm.residual layer_norm.beta
       layer_norm.rowscale layer_norm.colscale layer_norm.x0_subset
       layer_norm.z_subset layer_norm.x0 layer_norm.gamma layer_norm.z
       layer_norm.mu layer_norm.rs layer_norm.cols layer_norm.rows
       layer_norm.epsilon layer_norm.rowscale_const layer_norm.is_rms_norm
       layer_norm.dropout_keep_p layer_norm.dropout_scale
       layer_norm.philox_args layer_norm.workspace layer_norm.barrier].
  repeat split; try reflexivity. congruence.
Qed.

(** The call with every optional operand, dropout and the RMS flag. *)
Lemma query_payload_witness :
  exists f lp_query rest,
    launches (log (snd (Scenario.run Mixed.loaded Scenario.world0)))
    = (f, true, lp_query) :: rest
    /\ layer_norm.residual (layer_norm.params lp_query)
       = Some (CallerBuffer 2)
    /\ layer_norm.x0_subset (layer_norm.params lp_query) = None
    /\ layer_norm.cols (layer_norm.params lp_query) = 256
    /\ layer_norm.is_rms_norm (layer_norm.params lp_query) = true.
Proof.
  assert (Hout : {out | fst (Scenario.run Mixed.loaded Scenario.world0)
                        = Ok out})
    by (vm_compute; eexists; reflexivity).
  destruct Hout as [out Hout].
  destruct (query_payload 0 1 2 Scenario.registry
              Mixed.loaded Scenario.world0
              (snd (Scenario.run Mixed.loaded Scenario.world0)) out
              (run_pair _ _ Hout))
    as (events & f & lpq & rest & z & x & dmask & mu & rsigma & Hlog & Hl
        & _ & Hp).
  cbv zeta in Hp.
  destruct Hp as (Hres & _ & _ & _ & Hsub & _ & _ & _ & _ & _ & _ & Hcols
                  & _ & _ & _ & Hrms & _).
  exists f, lpq, rest.
  split; [rewrite Hlog; exact Hl|].
  split; [exact Hres|]. split; [exact Hsub|].
  split; [exact Hcols | exact Hrms].
Defined.

(** X15.  Between the two invocations of a returning call the dispatch
    writes nothing of the launch parameters but the generator state and
    the scratch references: the executing invocation is handed the three
    sizes, and every other field of the payload, exactly as the
    configuring invocation left them; and without dropout the generator
    state is as the configuring invocation left it too. *)
Theorem between_invocations
    (fp16 bf16 fp32 : Z) (FWD_FUNCS : gmap Z FwdFunction)
    (a : Args) (w w' : World) (out : list (option Tensor)) :
  dropout_add_ln_fwd fp16 bf16 fp32 FWD_FUNCS a w = (Ok out, w') ->
  exists events f lp_query lp_execute,
    log w' = log w ++ events
    /\ launches events = [(f, true, lp_query); (f, false, lp_execute)]
    /\ let reported := f lp_query true in
       layer_norm.elts_per_thread lp_execute
       = layer_norm.elts_per_thread reported
       /\ layer_norm.workspace_bytes lp_execute
          = layer_norm.workspace_bytes reported
       /\ layer_norm.barrier_size lp_execute
          = layer_norm.barrier_size reported
       /\ payload_core (layer_norm.params lp_execute)
          = payload_core (layer_norm.params reported)
       /\ (float_gt (dropout_p a) float_zero = false ->
           layer_norm.philox_args (layer_norm.params lp_execute)
           = layer_norm.philox_args (layer_norm.params reported)).
Proof.
  intros Hrun. apply run_ok_inv in Hrun.
  destruct Hrun as (d & f & _ & _ & _ & _ & ->).
  exists (call_events a d f w), f, (query_params a d),
    (execute_params a d f w).
  split; [reflexivity|]. split; [apply launches_call_events|].
  cbv zeta. unfold execute_params, with_scratch, with_generator.
  destruct (float_gt (dropout_p a) float_zero);
    cbn [layer_norm.barrier_size layer_norm.with_params];
    destruct (0 <? layer_norm.barrier_size (f (query_params a d) true));
    repeat split; try reflexivity; intros H; discriminate H.
Qed.

(** The call of 2048 columns, where scratch is allocated in between. *)
Lemma between_invocations_witness :
  exists f lp_query lp_execute,
    launches (log (snd (Scenario.run Scenario.wide Scenario.world0)))
    = [(f, true, lp_query); (f, false, lp_execute)]
    /\ layer_norm.barrier_size lp_execute
       = layer_norm.barrier_size (f lp_query true)
    /\ payload_core (layer_norm.params lp_execute)
       = payload_core (layer_norm.params (f lp_query true)).
Proof.
  assert (Hout : {out | fst (Scenario.run Scenario.wide Scenario.world0)
                        = Ok out})
    by (vm_compute; eexists; reflexivity).
  destruct Hout as [out Hout].
  destruct (between_invocations 0 1 2 Scenario.registry
              Scenario.wide Scenario.world0
              (snd (Scenario.run Scenario.wide Scenario.world0)) out
              (run_pair _ _ Hout))
    as (events & f & lpq & lpe & Hlog & Hl & Hp).
  cbv zeta in Hp. destruct Hp as (_ & _ & Hb & Hcore & _).
  exists f, lpq, lpe.
  split; [rewrite Hlog; exact Hl|]. split; [exact Hb | exact Hcore].
Defined.

(* ------------------------------------------------------------------ *)
(** ** What the dispatch does not look at *)

(** X16.  The weight's contiguity is never looked at: two calls that
    differ only in whether the weight tensor is contiguous run alike, to
    the same result and the same effects.  (Of the weight the checks ask
    that it be on the device and that its element count match the input's
    columns; contiguity is asked of the input alone.) *)
Theorem weight_contiguity_not_checked
    (fp16 bf16 fp32 : Z) (FWD_FUNCS : gmap Z FwdFunction)
    (a : Args) (g : Tensor) (w : World) :
  scalar_type g = scalar_type (gamma a) ->
  sizes g = sizes (gamma a) ->
  is_cuda g = is_cuda (gamma a) ->
  data_ptr g = data_ptr (gamma a) ->
  dropout_add_ln_fwd fp16 bf16 fp32 FWD_FUNCS (with_gamma g a) w
  = dropout_add_ln_fwd fp16 bf16 fp32 FWD_FUNCS a w.
Proof.
  destruct a as [ax0 ares ag abeta arow acol asub azsub adp aeps arc azn
                 agen afp32 arms].
  destruct ag as [st sz cu co dp], g as [st' sz' cu' co' dp'].
  cbn [gamma scalar_type sizes is_cuda data_ptr].
  intros -> -> -> ->.
  reflexivity.
Qed.

(** The plain call with a strided weight returns all the same. *)
Lemma weight_contiguity_not_checked_witness :
  exists out,
    fst (Scenario.run
           (with_gamma (mkTensor kFloat32 [256] true false (CallerBuffer 1))
              Scenario.plain)
           Scenario.world0) = Ok out.
Proof.
  unfold Scenario.run.
  rewrite (weight_contiguity_not_checked 0 1 2 Scenario.registry
             Scenario.plain
             (mkTensor kFloat32 [256] true false (CallerBuffer 1))
             Scenario.world0 eq_refl eq_refl eq_refl eq_refl).
  vm_compute. eexists. reflexivity.
Defined.

(** X17.  Asking for the residual in fp32 on an input that is not fp32,
    with no residual supplied, is enough to have the saved intermediate
    materialised: a returning call hands it back, in fp32, whatever else
    the call does or does not ask for. *)
Theorem residual_in_fp32_saves_intermediate
    (fp16 bf16 fp32 : Z) (FWD_FUNCS : gmap Z FwdFunction)
    (a : Args) (w w' : World) (out : list (option Tensor)) :
  residual_ a = None ->
  residual_in_fp32 a = true ->
  scalar_type (x0 a) <> kFloat32 ->
  dropout_add_ln_fwd fp16 bf16 fp32 FWD_FUNCS a w = (Ok out, w') ->
  exists z x dmask mu rsigma events,
    out = [z; Some x; dmask; mu; rsigma]
    /\ scalar_type x = kFloat32
    /\ log w' = log w ++ events
    /\ In buf_x (allocations events).
Proof.
  intros Hres Hflag Hty Hrun. apply run_ok_inv in Hrun.
  destruct Hrun as (d & f & _ & _ & _ & -> & ->).
  assert (Hr : rtype_of a = kFloat32)
    by (unfold rtype_of; rewrite Hres, Hflag; reflexivity).
  assert (Hsx : save_x a = true).
  { unfold save_x. rewrite Hr.
    replace (bool_decide (itype_of a <> kFloat32)) with true
      by (symmetry; apply bool_decide_eq_true; exact Hty).
    apply orb_true_r. }
  unfold outputs, out_x. rewrite Hsx.
  do 5 eexists. exists (call_events a d f w).
  split; [reflexivity|]. split; [cbn; exact Hr|].
  split; [reflexivity|].
  rewrite allocations_call_events, Hsx. left. reflexivity.
Qed.

(** The half-precision call of the second configuration. *)
Lemma residual_in_fp32_saves_intermediate_witness :
  exists z x dmask mu rsigma,
    fst (Mixed.run Mixed.half_input Scenario.world0)
    = Ok [z; Some x; dmask; mu; rsigma]
    /\ scalar_type x = kFloat32.
Proof.
  assert (Hout : {out | fst (Mixed.run Mixed.half_input Scenario.world0)
                        = Ok out})
    by (vm_compute; eexists; reflexivity).
  destruct Hout as [out Hout].
  destruct (residual_in_fp32_saves_intermediate 0 1 2 Mixed.registry
              Mixed.half_input Scenario.world0
              (snd (Mixed.run Mixed.half_input Scenario.world0)) out
              eq_refl eq_refl ltac:(discriminate) (run_pair _ _ Hout))
    as (z & x & dmask & mu & rsigma & events & Ho & Hx & _).
  exists z, x, dmask, mu, rsigma.
  split; [rewrite Hout, Ho; reflexivity | exact Hx].
Defined.

(** X18.  With a residual supplied, the [residual_in_fp32] flag has no
    effect: the call runs alike, to the same result and the same effects,
    whichever way the flag is set, the residual's own precision being the
    one that counts. *)
Theorem residual_in_fp32_ignored_with_residual
    (fp16 bf16 fp32 : Z) (FWD_FUNCS : gmap Z FwdFunction)
    (a : Args) (residual : Tensor) (b : bool) (w : World) :
  residual_ a = Some residual ->
  dropout_add_ln_fwd fp16 bf16 fp32 FWD_FUNCS (with_residual_in_fp32 b a) w
  = dropout_add_ln_fwd fp16 bf16 fp32 FWD_FUNCS a w.
Proof.
  destruct a as [ax0 ares ag abeta arow acol asub azsub adp aeps arc azn
                 agen afp32 arms].
  cbn [residual_]. intros ->.
  reflexivity.
Qed.

(** The call with a residual, the flag set. *)
Lemma residual_in_fp32_ignored_with_residual_witness :
  Scenario.run (with_residual_in_fp32 true Scenario.with_residual)
    Scenario.world0
  = Scenario.run Scenario.with_residual Scenario.world0.
Proof.
  exact (residual_in_fp32_ignored_with_residual 0 1 2 Scenario.registry
           Scenario.with_residual (Scenario.mat 4 256 2 kFloat32) true
           Scenario.world0 eq_refl).
Defined.

(* ------------------------------------------------------------------ *)
(** ** Scatter targets and shared launchers *)

(** X19.  Whenever a scatter index is supplied, with or without a gather
    index, the output of a returning call has the row count the caller
    gave as [z_numrows], by as many columns as the weight has elements:
    the row count of the output is then not derived from the input or
    from the index buffers. *)
Theorem scatter_output_rows
    (fp16 bf16 fp32 : Z) (FWD_FUNCS : gmap Z FwdFunction)
    (a : Args) (w w' : World) (out : list (option Tensor))
    (z_subset : Tensor) :
  z_subset_ a = Some z_subset ->
  dropout_add_ln_fwd fp16 bf16 fp32 FWD_FUNCS a w = (Ok out, w') ->
  exists z x dmask mu rsigma,
    out = [Some z; x; dmask; mu; rsigma]
    /\ sizes z = [z_numrows a; numel (gamma a)].
Proof.
  intros Hz Hrun. apply run_ok_inv in Hrun.
  destruct Hrun as (d & f & Hd & _ & _ & -> & _).
  destruct (check_args_dims a d Hd)
    as (n0 & n & c & _ & _ & _ & _ & _ & Hhid & Hhc).
  unfold outputs. do 5 eexists. split; [reflexivity|].
  unfold out_z, z_shape, fresh. rewrite Hz. cbn [has_value sizes].
  congruence.
Qed.

(** The scatter index alone, with a target of four rows. *)
Lemma scatter_output_rows_witness :
  exists z x dmask mu rsigma,
    fst (Scenario.run Scenario.scatter_only Scenario.world0)
    = Ok [Some z; x; dmask; mu; rsigma]
    /\ sizes z = [4; 256].
Proof.
  assert (Hout : {out | fst (Scenario.run Scenario.scatter_only
                               Scenario.world0) = Ok out})
    by (vm_compute; eexists; reflexivity).
  destruct Hout as [out Hout].
  destruct (scatter_output_rows 0 1 2 Scenario.registry
              Scenario.scatter_only Scenario.world0
              (snd (Scenario.run Scenario.scatter_only Scenario.world0)) out
              _ eq_refl (run_pair _ _ Hout))
    as (z & x & dmask & mu & rsigma & Ho & Hz).
  exists z, x, dmask, mu, rsigma.
  split; [rewrite Hout, Ho; reflexivity | exact Hz].
Defined.

(** X20.  One launcher serves a whole bucket: two returning calls with the
    same weight, input and residual precisions whose hidden sizes round to
    the same size have invoked the same launcher, however their hidden
    sizes, rows and other operands differ. *)
Theorem same_bucket_same_launcher
    (fp16 bf16 fp32 : Z) (FWD_FUNCS : gmap Z FwdFunction)
    (a1 a2 : Args) (w1 w1' w2 w2' : World)
    (out1 out2 : list (option Tensor)) :
  scalar_type (gamma a1) = scalar_type (gamma a2) ->
  scalar_type (x0 a1) = scalar_type (x0 a2) ->
  residual_precision a1 = residual_precision a2 ->
  launcher_hidden_size (numel (gamma a1))
  = launcher_hidden_size (numel (gamma a2)) ->
  dropout_add_ln_fwd fp16 bf16 fp32 FWD_FUNCS a1 w1 = (Ok out1, w1') ->
  dropout_add_ln_fwd fp16 bf16 fp32 FWD_FUNCS a2 w2 = (Ok out2, w2') ->
  exists f events1 events2,
    log w1' = log w1 ++ events1
    /\ log w2' = log w2 ++ events2
    /\ map (fun l => fst (fst l)) (launches events1) = [f; f]
    /\ map (fun l => fst (fst l)) (launches events2) = [f; f].
Proof.
  intros Hw Hi Hr Hb Hrun1 Hrun2.
  apply run_ok_inv in Hrun1. apply run_ok_inv in Hrun2.
  destruct Hrun1 as (d1 & f1 & Hd1 & _ & Hres1 & _ & ->).
  destruct Hrun2 as (d2 & f2 & Hd2 & _ & Hres2 & _ & ->).
  destruct (check_args_dims a1 d1 Hd1)
    as (? & ? & ? & _ & _ & _ & _ & _ & Hh1 & _).
  destruct (check_args_dims a2 d2 Hd2)
    as (? & ? & ? & _ & _ & _ & _ & _ & Hh2 & _).
  unfold resolve_for, wtype_of, otype_of, itype_of in Hres1, Hres2.
  change (rtype_of a1) with (residual_precision a1) in Hres1.
  change (rtype_of a2) with (residual_precision a2) in Hres2.
  rewrite Hh1, Hw, Hi, Hr, Hb in Hres1. rewrite Hh2 in Hres2.
  assert (f1 = f2) by congruence. subst f2.
  exists f1, (call_events a1 d1 f1 w1), (call_events a2 d2 f1 w2).
  split; [reflexivity|]. split; [reflexivity|].
  rewrite !launches_call_events. split; reflexivity.
Qed.

(** 200 columns and 256 columns share the launcher of the 256 bucket. *)
Lemma same_bucket_same_launcher_witness :
  exists f,
    map (fun l => fst (fst l))
      (launches (log (snd (Scenario.run Scenario.narrow Scenario.world0))))
    = [f; f]
    /\ map (fun l => fst (fst l))
         (launches (log (snd (Scenario.run Scenario.plain Scenario.world0))))
       = [f; f].
Proof.
  assert (Hout1 : {out | fst (Scenario.run Scenario.narrow Scenario.world0)
                         = Ok out})
    by (vm_compute; eexists; reflexivity).
  assert (Hout2 : {out | fst (Scenario.run Scenario.plain Scenario.world0)
                         = Ok out})
    by (vm_compute; eexists; reflexivity).
  destruct Hout1 as [out1 Hout1]. destruct Hout2 as [out2 Hout2].
  destruct (same_bucket_same_launcher 0 1 2 Scenario.registry
              Scenario.narrow Scenario.plain
              Scenario.world0
              (snd (Scenario.run Scenario.narrow Scenario.world0))
              Scenario.world0
              (snd (Scenario.run Scenario.plain Scenario.world0))
              out1 out2 eq_refl eq_refl eq_refl eq_refl
              (run_pair _ _ Hout1) (run_pair _ _ Hout2))
    as (f & ev1 & ev2 & Hl1 & Hl2 & H1 & H2).
  exists f. rewrite Hl1, Hl2. cbn [log Scenario.world0 app].
  split; [exact H1 | exact H2].
Defined.

(* ------------------------------------------------------------------ *)
(** ** Failing calls and allocation, on the arguments *)









